(** * Talent8 MCP server: the retrieval client, the result models and the
      response formatter, embedded from [src/models.py], [src/config.py],
      [src/bedrock_client.py] and [src/server.py].

    Conventions:
    - a Python [int] is a [Z], a [float] a binary64 [float], a [str] a
      [string] (a sequence of characters);
    - a document received from the service is a [pyval]; a [dict] is the
      list of its items in insertion order, its keys distinct;
    - a function that may raise returns an [outcome]; one that also logs or
      calls the service runs in the monad [M], over the diagnostic stream and
      the trace of requests (and, in [src/server.py], the module's global);
    - the keyword arguments handed to [boto3.client] form a [gmap]. *)

From Stdlib Require Import ZArith List String Ascii Lia.
From Stdlib Require Import Floats DecimalString.
From stdpp Require Import base option strings gmap.

#[local] Set Warnings "-inexact-float,-register-all".
#[local] Open Scope Z_scope.

(** ** Python values *)

(** The values a parsed service document is made of ([Dict[str, Any]] in the
    source's annotations).  A [dict] keeps its insertion order, which
    [items()] follows; its keys are strings, as in a JSON document. *)
Inductive pyval : Type :=
| PyNone
| PyBool (b : bool)
| PyInt (z : Z)
| PyFloat (f : float)
| PyStr (s : string)
| PyList (l : list pyval)
| PyDict (d : list (string * pyval)).

Abbreviation dict := (list (string * pyval)).

(** [d.get(key)]: the value stored under [key], if any. *)
Fixpoint dict_get (d : dict) (key : string) : option pyval :=
  match d with
  | [] => None
  | (k, v) :: d' => if String.eqb k key then Some v else dict_get d' key
  end.

(** [d.get(key, dflt)]. *)
Definition dict_get_default (d : dict) (key : string) (dflt : pyval) : pyval :=
  default dflt (dict_get d key).

(** [type(v).__name__], as it appears in the interpreter's error messages. *)
Definition type_name (v : pyval) : string :=
  match v with
  | PyNone => "NoneType"
  | PyBool _ => "bool"
  | PyInt _ => "int"
  | PyFloat _ => "float"
  | PyStr _ => "str"
  | PyList _ => "list"
  | PyDict _ => "dict"
  end.

(** Truth value of an object in a condition ([if v:]). *)
Definition truthy (v : pyval) : bool :=
  match v with
  | PyNone => false
  | PyBool b => b
  | PyInt z => negb (z =? 0)
  | PyFloat f => negb (PrimFloat.eqb f 0%float)
  | PyStr s => negb (String.eqb s "")
  | PyList l => negb (Nat.eqb (length l) 0)
  | PyDict d => negb (Nat.eqb (length d) 0)
  end.

(** Truth value of an [Optional[str]] / [Optional[Dict]] attribute. *)
Definition truthy_str (o : option string) : bool :=
  match o with
  | Some s => negb (String.eqb s "")
  | None => false
  end.

Definition truthy_dict (o : option dict) : bool :=
  match o with
  | Some (_ :: _) => true
  | _ => false
  end.

(** ** Text *)

Definition nl : string := String (ascii_of_nat 10) EmptyString.

(** [str(z)] for an [int]. *)
Definition str_int (z : Z) : string := NilZero.string_of_int (Z.to_int z).

(** ["sep".join(lines)]. *)
Fixpoint join (sep : string) (lines : list string) : string :=
  match lines with
  | [] => ""
  | [l] => l
  | l :: ls => l +:+ sep +:+ join sep ls
  end.

(** [sub in s]. *)
Definition contains (s sub : string) : Prop :=
  exists pre post, s = pre +:+ sub +:+ post.


(** ** Fixed-point rendering of a float: [f"{x:.1f}"]

    The interpreter prints the decimal with one fractional digit that is
    nearest to the exact binary value, ties going to the even digit. *)

(** Nearest integer to [num / den] for [0 <= num], [0 < den], ties to even. *)
Definition round_half_even (num den : Z) : Z :=
  let q := num / den in
  let r := num mod den in
  if 2 * r <? den then q
  else if den <? 2 * r then q + 1
  else if Z.even q then q else q + 1.

(** [|m * 2^e|] in tenths, rounded. *)
Definition tenths (m : positive) (e : Z) : Z :=
  if 0 <=? e then 10 * Z.pos m * 2 ^ e
  else round_half_even (10 * Z.pos m) (2 ^ (- e)).

Definition sign_str (s : bool) : string := if s then "-" else "".

Definition fixed1 (s : bool) (t : Z) : string :=
  sign_str s +:+ str_int (t / 10) +:+ "." +:+ str_int (t mod 10).


Definition format_1f (x : float) : string :=
  match Prim2SF x with
  | S754_nan => "nan"
  | S754_infinity s => sign_str s +:+ "inf"
  | S754_zero s => fixed1 s 0
  | S754_finite s m e => fixed1 s (tenths m e)
  end.

(** ** What the interpreter and the libraries decide

    Behaviour of CPython and pydantic that the repository relies on but
    does not define.  Everything below is stated for every such runtime. *)
Class Runtime : Type := {
  (** [str(v)] for a float, a list or a dict (their [repr]). *)
  py_repr : pyval -> string;
  (** pydantic's conversion to [float] of an input that is neither [None]
      nor a float (an int, a numeric string, ...); [None] when the input is
      refused. *)
  lax_float : pyval -> option float;
  (** Whether the bounds check [ge=0.0, le=1.0] lets a NaN through. *)
  nan_within_bounds : bool;
  (** [str(e)] of a pydantic ValidationError, from the model's name and the
      rejected fields with their inputs. *)
  validation_error_str : string -> list (string * pyval) -> string
}.

(** [str(v)], as an f-string renders [{v}]. *)
Definition py_str `{Runtime} (v : pyval) : string :=
  match v with
  | PyStr s => s
  | PyNone => "None"
  | PyBool true => "True"
  | PyBool false => "False"
  | PyInt z => str_int z
  | _ => py_repr v
  end.

(** ** Exceptions

    Every constructor stands for a subclass of [Exception].  Signals that
    derive from [BaseException] only (KeyboardInterrupt, SystemExit) are not
    part of the model. *)
Inductive exn : Type :=
| ClientError (error : option dict) (text : string)
    (* botocore's ClientError: the "Error" entry of [e.response] (a mapping,
       botocore's constructor reads it with [.get]) and [str(e)] *)
| BotoCoreError (text : string)
| BedrockClientError (text : string)
| ValidationError (title : string) (errors : list (string * pyval))
| AttributeError (text : string)
| TypeError (text : string)
| OtherException (text : string).

(** [str(e)]. *)
Definition exn_str `{Runtime} (e : exn) : string :=
  match e with
  | ClientError _ text | BotoCoreError text | BedrockClientError text
  | AttributeError text | TypeError text | OtherException text => text
  | ValidationError title errors => validation_error_str title errors
  end.

Inductive outcome (A : Type) : Type :=
| Return (a : A)
| Raise (e : exn).
Arguments Return {A} a.
Arguments Raise {A} e.

Definition obind {A B} (o : outcome A) (k : A -> outcome B) : outcome B :=
  match o with
  | Return a => k a
  | Raise e => Raise e
  end.

(** A list comprehension whose element expression may raise: the first
    exception ends it. *)
Fixpoint omap {A B} (f : A -> outcome B) (l : list A) : outcome (list B) :=
  match l with
  | [] => Return []
  | x :: l' => obind (f x) (fun y => obind (omap f l') (fun ys => Return (y :: ys)))
  end.

(** [v.get(key, dflt)] on an arbitrary object: only a dict has the method. *)
Definition py_get (v : pyval) (key : string) (dflt : pyval) : outcome pyval :=
  match v with
  | PyDict d => Return (dict_get_default d key dflt)
  | _ => Raise (AttributeError ("'" +:+ type_name v +:+ "' object has no attribute 'get'"))
  end.

(** [len(v)]. *)
Definition py_len (v : pyval) : outcome Z :=
  match v with
  | PyList l => Return (Z.of_nat (length l))
  | PyDict d => Return (Z.of_nat (length d))
  | PyStr s => Return (Z.of_nat (String.length s))
  | _ => Raise (TypeError ("object of type '" +:+ type_name v +:+ "' has no len()"))
  end.

(** The elements [for x in v] goes through: a dict yields its keys, a
    string its characters. *)
Definition py_iter (v : pyval) : outcome (list pyval) :=
  match v with
  | PyList l => Return l
  | PyDict d => Return (map (fun kv => PyStr (fst kv)) d)
  | PyStr s => Return (map (fun c => PyStr (String c EmptyString)) (list_ascii_of_string s))
  | _ => Raise (TypeError ("'" +:+ type_name v +:+ "' object is not iterable"))
  end.

(** ** State and exceptions

    A computation over a state [S] ends with a value or a raised exception,
    and the state it leaves behind. *)
Definition M (S A : Type) : Type := S -> outcome A * S.

Definition ret {S A} (a : A) : M S A := fun s => (Return a, s).
Definition raise {S A} (e : exn) : M S A := fun s => (Raise e, s).
Definition bind {S A B} (m : M S A) (k : A -> M S B) : M S B :=
  fun s => match m s with
           | (Return a, s') => k a s'
           | (Raise e, s') => (Raise e, s')
           end.
Definition lift {S A} (o : outcome A) : M S A := fun s => (o, s).

(** [try: body / except ...]: [handler e] is the body of the first
    [except] clause whose class [e] is an instance of, if there is one. *)
Definition try_except {S A} (body : M S A) (handler : exn -> option (M S A)) : M S A :=
  fun s => match body s with
           | (Return a, s') => (Return a, s')
           | (Raise e, s') =>
               match handler e with
               | Some h => h s'
               | None => (Raise e, s')
               end
           end.

Declare Scope py_scope.
Delimit Scope py_scope with py.
Notation "x <- m ;; k" := (bind m (fun x => k))
  (at level 100, m at next level, right associativity) : py_scope.
Notation "m ;;; k" := (bind m (fun _ => k))
  (at level 100, right associativity) : py_scope.
Notation "x <~ o ;; k" := (obind o (fun x => k))
  (at level 100, o at next level, right associativity) : py_scope.

(** * src/models.py *)

Module models.

(** A pydantic constructor validates every field and raises one
    ValidationError that lists the rejected ones, in field order. *)
Definition checked (A : Type) : Type := (list (string * pyval) + A)%type.

Definition rejected {A} (c : checked A) : list (string * pyval) :=
  match c with
  | inl errors => errors
  | inr _ => []
  end.

Definition reject {A} (field : string) (input : pyval) : checked A :=
  inl [(field, input)].

(** [class JobOpeningQuery(BaseModel)] *)
Record JobOpeningQuery : Type := {
  query_text : string;
  max_results : Z
}.

(** [query_text: str = Field(..., min_length=1)] *)
Definition check_query_text (v : string) : checked string :=
  if (Z.of_nat (String.length v) <? 1) then reject "query_text" (PyStr v) else inr v.

(** [max_results: int = Field(default=10, gt=0, le=100)] *)
Definition check_max_results (v : Z) : checked Z :=
  if (0 <? v) && (v <=? 100) then inr v else reject "max_results" (PyInt v).

(** [JobOpeningQuery(query_text=..., max_results=...)] *)
Definition JobOpeningQuery_new (query_text : string) (max_results : Z)
  : outcome JobOpeningQuery :=
  match check_query_text query_text, check_max_results max_results with
  | inr q, inr n => Return {| query_text := q; max_results := n |}
  | c1, c2 => Raise (ValidationError "JobOpeningQuery" (rejected c1 ++ rejected c2))
  end.

(** [class SourceMetadata(BaseModel)] *)
Record SourceMetadata : Type := {
  type : string;
  s3_location : option dict;
  web_location : option dict
}.

(** A field annotated [str]. *)
Definition check_str (field : string) (v : pyval) : checked string :=
  match v with
  | PyStr s => inr s
  | _ => reject field v
  end.

(** A field annotated [Dict[str, Any]]. *)
Definition check_dict (field : string) (v : pyval) : checked dict :=
  match v with
  | PyDict d => inr d
  | _ => reject field v
  end.

(** A field annotated [Optional[Dict[str, Any]]]. *)
Definition check_optional_dict (field : string) (v : pyval) : checked (option dict) :=
  match v with
  | PyNone => inr None
  | PyDict d => inr (Some d)
  | _ => reject field v
  end.

(** [SourceMetadata(type=..., s3_location=..., web_location=...)] *)
Definition SourceMetadata_new (type s3_location web_location : pyval)
  : outcome SourceMetadata :=
  match check_str "type" type,
        check_optional_dict "s3_location" s3_location,
        check_optional_dict "web_location" web_location with
  | inr t, inr s3, inr web =>
      Return {| type := t; s3_location := s3; web_location := web |}
  | c1, c2, c3 =>
      Raise (ValidationError "SourceMetadata" (rejected c1 ++ rejected c2 ++ rejected c3))
  end.

(** [class JobOpeningResult(BaseModel)] *)
Record JobOpeningResult : Type := {
  content : string;
  score : option float;
  metadata : dict;
  source : option SourceMetadata
}.

(** The bounds of [score]: [ge=0.0, le=1.0]. *)
Definition within_bounds `{Runtime} (f : float) : bool :=
  if PrimFloat.is_nan f then nan_within_bounds
  else PrimFloat.leb 0 f && PrimFloat.leb f 1.

(** [score: Optional[float] = Field(default=None, ge=0.0, le=1.0)] *)
Definition check_score `{Runtime} (v : pyval) : checked (option float) :=
  match v with
  | PyNone => inr None
  | _ =>
      match (match v with PyFloat f => Some f | _ => lax_float v end) with
      | Some f => if within_bounds f then inr (Some f) else reject "score" v
      | None => reject "score" v
      end
  end.

(** [JobOpeningResult(content=..., score=..., metadata=..., source=...)];
    [source] is already a SourceMetadata instance or [None]. *)
Definition JobOpeningResult_new `{Runtime} (content score metadata : pyval)
    (source : option SourceMetadata) : outcome JobOpeningResult :=
  match check_str "content" content, check_score score,
        check_dict "metadata" metadata with
  | inr c, inr s, inr m =>
      Return {| content := c; score := s; metadata := m; source := source |}
  | c1, c2, c3 =>
      Raise (ValidationError "JobOpeningResult" (rejected c1 ++ rejected c2 ++ rejected c3))
  end.

(** [class JobOpeningsResponse(BaseModel)] *)
Record JobOpeningsResponse : Type := {
  results : list JobOpeningResult;
  total_results : Z
}.

(** [validate_total_results(cls, v, info)]; [info_data_results] is
    [info.data["results"]] when ["results" in info.data], that is when the
    field [results], declared first, has been validated. *)
Definition validate_total_results (v : Z)
    (info_data_results : option (list JobOpeningResult)) : Z :=
  match info_data_results with
  | Some rs => Z.of_nat (length rs)
  | None => v
  end.

(** [JobOpeningsResponse(results=..., total_results=...)], either keyword
    possibly left out.

    - [results] takes [default_factory=list] when left out; a list of
      JobOpeningResult instances is valid as it is.
    - [total_results], when given, is checked against [ge=0] and, if it
      passes, handed to the field validator (mode "after"); when left out it
      takes [default=0] and the validator is not run (no
      [validate_default]). *)
Definition JobOpeningsResponse_new (results : option (list JobOpeningResult))
    (total_results : option Z) : outcome JobOpeningsResponse :=
  let rs := default [] results in
  match total_results with
  | None => Return {| results := rs; total_results := 0 |}
  | Some v =>
      if 0 <=? v
      then Return {| results := rs; total_results := validate_total_results v (Some rs) |}
      else Raise (ValidationError "JobOpeningsResponse" [("total_results", PyInt v)])
  end.

End models.
Import models.

(** * src/config.py *)

Module config.

(** [class Settings(BaseSettings)] *)
Record Settings : Type := {
  aws_region : string;
  bedrock_knowledge_base_id : string;
  aws_access_key_id : option string;
  aws_secret_access_key : option string
}.

(** [Settings.get_boto3_config]: the keyword arguments for [boto3.client]. *)
Definition get_boto3_config (self : Settings) : gmap string string :=
  let config : gmap string string := {[ "region_name" := aws_region self ]} in
  if truthy_str (aws_access_key_id self) && truthy_str (aws_secret_access_key self)
  then
    let config := <[ "aws_access_key_id" := default "" (aws_access_key_id self) ]> config in
    let config := <[ "aws_secret_access_key" := default "" (aws_secret_access_key self) ]> config in
    config
  else config.

End config.
Import config.

(** * src/bedrock_client.py *)

Module bedrock_client.

#[local] Open Scope py_scope.

(** The keyword arguments of one call of the service's [retrieve]. *)
Record RetrieveRequest : Type := {
  knowledgeBaseId : string;
  retrievalQuery_text : string;
  numberOfResults : Z
}.

(** The handle [boto3.client("bedrock-agent-runtime", ...)] returns: one
    call of [retrieve] answers with the service's document or raises. *)
Record boto3_client : Type := {
  retrieve : RetrieveRequest -> outcome pyval
}.

(** What a process observes of the outside: the lines written to the
    diagnostic stream and the search requests issued, oldest first. *)
Record io : Type := {
  stderr : list string;
  requests : list RetrieveRequest
}.

(** [print(line, file=sys.stderr)] *)
Definition print_stderr (line : string) : M io unit :=
  fun w => (Return tt, {| stderr := stderr w ++ [line]; requests := requests w |}).

(** What the process is started in: the outcome of [get_settings()] (the
    settings read from the environment, cached) and of [boto3.client]. *)
Record environment : Type := {
  get_settings : outcome Settings;
  boto3_client_new : string -> gmap string string -> outcome boto3_client
}.

(** [class BedrockClient] *)
Record BedrockClient : Type := {
  settings : Settings;
  knowledge_base_id : string;
  client : boto3_client
}.

(** [BedrockClient._log] *)
Definition _log (message : string) (level : string) : M io unit :=
  print_stderr ("[BedrockClient] [" +:+ level +:+ "] " +:+ message).

Section Methods.
Context `{Runtime}.

(** [BedrockClient.__init__] *)
Definition __init__ (env : environment) : M io BedrockClient :=
  settings <- lift (get_settings env) ;;
  let knowledge_base_id := bedrock_knowledge_base_id settings in
  try_except
    (let boto3_config := get_boto3_config settings in
     client <- lift (boto3_client_new env "bedrock-agent-runtime" boto3_config) ;;
     _log ("Initialized Bedrock client for KB: " +:+ knowledge_base_id) "INFO" ;;;
     ret {| settings := settings; knowledge_base_id := knowledge_base_id;
            client := client |})
    (fun e => Some (
       _log ("Failed to initialize Bedrock client: " +:+ exn_str e) "ERROR" ;;;
       raise (BedrockClientError ("Failed to initialize Bedrock client: " +:+ exn_str e)))).

(** [BedrockClient._parse_source_metadata] *)
Definition _parse_source_metadata (location_data : pyval) : outcome SourceMetadata :=
  source_type <~ py_get location_data "type" (PyStr "UNKNOWN") ;;
  s3_location <~ py_get location_data "s3Location" PyNone ;;
  web_location <~ py_get location_data "webLocation" PyNone ;;
  SourceMetadata_new source_type s3_location web_location.

(** [BedrockClient._parse_retrieve_result] *)
Definition _parse_retrieve_result (result_data : pyval) : outcome JobOpeningResult :=
  content_data <~ py_get result_data "content" (PyDict []) ;;
  content_text <~ py_get content_data "text" (PyStr "") ;;
  score <~ py_get result_data "score" PyNone ;;
  metadata <~ py_get result_data "metadata" (PyDict []) ;;
  location_data <~ py_get result_data "location" PyNone ;;
  source <~ (if truthy location_data
             then source <~ _parse_source_metadata location_data ;; Return (Some source)
             else Return None) ;;
  JobOpeningResult_new content_text score metadata source.

(** *** Entries of the documented shape

    An entry as the service documents it: every field may be missing; the
    text is a string, the score a float, the metadata and the two locations
    mappings, the type of the location a string. *)
Record raw_location : Type := {
  raw_type : option string;
  raw_s3Location : option dict;
  raw_webLocation : option dict
}.

Record raw_entry : Type := {
  raw_text : option string;
  raw_score : option float;
  raw_metadata : option dict;
  raw_location_ : option raw_location
}.

(** A key with its value, when there is a value. *)
Definition item {A} (key : string) (inject : A -> pyval) (o : option A) : dict :=
  match o with
  | Some a => [(key, inject a)]
  | None => []
  end.

(** The document of such an entry. *)
Definition document_of_location (l : raw_location) : pyval :=
  PyDict (item "type" PyStr (raw_type l)
            ++ item "s3Location" PyDict (raw_s3Location l)
            ++ item "webLocation" PyDict (raw_webLocation l)).

Definition document_of (entry : raw_entry) : pyval :=
  PyDict (item "content" (fun t => PyDict [("text", PyStr t)]) (raw_text entry)
            ++ item "score" PyFloat (raw_score entry)
            ++ item "metadata" PyDict (raw_metadata entry)
            ++ item "location" document_of_location (raw_location_ entry)).

(** The parsing rule in the specification's words: content is the text,
    the empty string if absent; score is the score if present; metadata is
    the mapping if present, else the empty mapping; source is derived from
    the location if present, with "UNKNOWN" for a missing type.  (A location
    with none of the three sub-fields is an empty mapping, which the code
    takes for a missing location.) *)
Definition parsing_rule (entry : raw_entry) : JobOpeningResult :=
  {| content := default "" (raw_text entry);
     score := raw_score entry;
     metadata := default [] (raw_metadata entry);
     source :=
       match raw_location_ entry with
       | Some {| raw_type := None; raw_s3Location := None; raw_webLocation := None |} => None
       | Some l => Some {| type := default "UNKNOWN" (raw_type l);
                           s3_location := raw_s3Location l;
                           web_location := raw_webLocation l |}
       | None => None
       end |}.

(** The score of an entry of the documented shape passes the bounds. *)
Definition score_within_bounds (entry : raw_entry) : Prop :=
  match raw_score entry with
  | Some f => within_bounds f = true
  | None => True
  end.

(** Whether an entry gets through [_parse_retrieve_result]. *)
Definition parses (result_data : pyval) : bool :=
  match _parse_retrieve_result result_data with
  | Return _ => true
  | Raise _ => false
  end.

(** [self.client.retrieve(...)]: the request goes out, then the
    service's answer comes back or the call raises. *)
Definition call_retrieve (handle : boto3_client) (request : RetrieveRequest)
  : M io pyval :=
  fun w => (retrieve handle request,
            {| stderr := stderr w; requests := requests w ++ [request] |}).

(** The keyword arguments [retrieve_job_openings] calls the service with. *)
Definition retrieve_request (self : BedrockClient) (query_text : string) (max_results : Z)
  : RetrieveRequest :=
  {| knowledgeBaseId := knowledge_base_id self;
     retrievalQuery_text := query_text;
     numberOfResults := max_results |}.

(** [BedrockClient.retrieve_job_openings] *)
Definition retrieve_job_openings (self : BedrockClient)
    (query_text : string) (max_results : Z) : M io JobOpeningsResponse :=
  try_except
    (_log ("Retrieving job openings for query: '" +:+ query_text +:+ "'") "INFO" ;;;
     response <- call_retrieve (client self)
                   (retrieve_request self query_text max_results) ;;
     retrieval_results <- lift (py_get response "retrievalResults" (PyList [])) ;;
     n <- lift (py_len retrieval_results) ;;
     _log ("Retrieved " +:+ str_int n +:+ " results") "INFO" ;;;
     job_results <- lift (items <~ py_iter retrieval_results ;;
                          omap _parse_retrieve_result items) ;;
     lift (JobOpeningsResponse_new (Some job_results)
             (Some (Z.of_nat (length job_results)))))
    (fun e =>
       match e with
       | ClientError err _ =>
           Some (
             let error_code :=
               dict_get_default (default [] err) "Code" (PyStr "Unknown") in
             let error_message :=
               dict_get_default (default [] err) "Message" (PyStr (exn_str e)) in
             _log ("AWS ClientError during retrieval: " +:+ py_str error_code
                     +:+ " - " +:+ py_str error_message) "ERROR" ;;;
             raise (BedrockClientError
                      ("AWS error during retrieval: " +:+ py_str error_code
                         +:+ " - " +:+ py_str error_message)))
       | BotoCoreError _ =>
           Some (
             _log ("BotoCoreError during retrieval: " +:+ exn_str e) "ERROR" ;;;
             raise (BedrockClientError
                      ("Failed to retrieve job openings: " +:+ exn_str e)))
       | _ =>
           Some (
             _log ("Unexpected error during retrieval: " +:+ exn_str e) "ERROR" ;;;
             raise (BedrockClientError
                      ("Unexpected error during retrieval: " +:+ exn_str e)))
       end).

End Methods.

End bedrock_client.
Import bedrock_client.

(** * src/server.py *)

Module server.

#[local] Open Scope py_scope.

(** [_log] *)
Definition _log (message : string) (level : string) : M io unit :=
  print_stderr ("[MCP Server] [" +:+ level +:+ "] " +:+ message).

Definition FAILED_TO_RETRIEVE : string :=
  "Failed to retrieve job openings. Please try again later.".
Definition UNEXPECTED_ERROR : string :=
  "An unexpected error occurred. Please try again later.".
Definition NO_JOB_OPENINGS : string :=
  "No job openings found matching your query.".

Section Formatter.
Context `{Runtime}.

(** The line of one metadata item: [f"  - {key}: {value}"]. *)
Definition metadata_line (item : string * pyval) : string :=
  "  - " +:+ fst item +:+ ": " +:+ py_str (snd item).

(** [for key, value in result.metadata.items(): lines.append(...)] *)
Definition append_metadata (lines : list string) (metadata : dict) : list string :=
  fold_left (fun lines item => lines ++ [metadata_line item]) metadata lines.

(** The body of [if result.source:]. *)
Definition append_source (lines : list string) (source : SourceMetadata) : list string :=
  let lines := lines ++ [nl +:+ "Source Type: " +:+ type source] in
  if truthy_dict (s3_location source) then
    let uri := dict_get_default (default [] (s3_location source)) "uri" (PyStr "N/A") in
    lines ++ ["Location: " +:+ py_str uri]
  else if truthy_dict (web_location source) then
    let url := dict_get_default (default [] (web_location source)) "url" (PyStr "N/A") in
    lines ++ ["URL: " +:+ py_str url]
  else lines.

(** One turn of [for idx, result in enumerate(response.results, start=1)]. *)
Definition append_result (lines : list string) (idx : Z) (result : JobOpeningResult)
  : list string :=
  let lines := lines ++ [nl +:+ "--- Job Opening #" +:+ str_int idx +:+ " ---"] in
  let lines :=
    match score result with
    | Some s =>
        let score_pct := PrimFloat.mul s 100 in
        lines ++ ["Relevance Score: " +:+ format_1f score_pct +:+ "%"]
    | None => lines
    end in
  let lines := lines ++ [nl +:+ content result] in
  let lines :=
    match metadata result with
    | _ :: _ => append_metadata (lines ++ [nl +:+ "Metadata:"]) (metadata result)
    | [] => lines
    end in
  let lines :=
    match source result with
    | Some source => append_source lines source
    | None => lines
    end in
  lines ++ [""].

(** The lines one result contributes. *)
Definition result_lines (idx : Z) (result : JobOpeningResult) : list string :=
  append_result [] idx result.



(** The whole [for] loop, from index [idx]. *)
Fixpoint append_results (lines : list string) (idx : Z) (results : list JobOpeningResult)
  : list string :=
  match results with
  | [] => lines
  | result :: rest => append_results (append_result lines idx result) (idx + 1) rest
  end.

(** [_format_job_openings_response] *)
Definition _format_job_openings_response (response : JobOpeningsResponse) : string :=
  if total_results response =? 0 then NO_JOB_OPENINGS
  else
    let lines := ["Found " +:+ str_int (total_results response) +:+ " job opening(s):" +:+ nl] in
    join nl (append_results lines 1 (results response)).

End Formatter.

(** The state of the module: the outside, and the global [_bedrock_client]. *)
Record state (Client : Type) : Type := {
  world : io;
  _bedrock_client : option Client
}.
Arguments world {Client} _.
Arguments _bedrock_client {Client} _.

(** The state after one more line on the diagnostic stream. *)
Definition logged {Client} (line : string) (st : state Client) : state Client :=
  {| world := {| stderr := stderr (world st) ++ [line]; requests := requests (world st) |};
     _bedrock_client := _bedrock_client st |}.

(** The message an exception caught at the boundary is turned into. *)
Definition user_message (e : exn) : string :=
  match e with
  | BedrockClientError _ => FAILED_TO_RETRIEVE
  | _ => UNEXPECTED_ERROR
  end.

(** The line logged when the query has been accepted. *)
Definition processing_line (query : JobOpeningQuery) : string :=
  "[MCP Server] [INFO] Processing query: '" +:+ query_text query
    +:+ "' (max_results=" +:+ str_int (max_results query) +:+ ")".

Section Tool.
Context `{Runtime}.
(** The retrieval client the module is linked with: what [BedrockClient()]
    does and what [client.retrieve_job_openings(...)] does.  The test suite
    substitutes doubles for both. *)
Context {Client : Type}.
Variable BedrockClient_new : M io Client.
Variable client_retrieve_job_openings : Client -> string -> Z -> M io JobOpeningsResponse.

(** A computation on the outside, run from the module. *)
Definition in_world {A} (m : M io A) : M (state Client) A :=
  fun st =>
    let (r, w) := m (world st) in
    (r, {| world := w; _bedrock_client := _bedrock_client st |}).

(** [get_bedrock_client] *)
Definition get_bedrock_client : M (state Client) Client :=
  fun st =>
    match _bedrock_client st with
    | None =>
        (c <- in_world BedrockClient_new ;;
         fun st' => (Return c, {| world := world st'; _bedrock_client := Some c |})) st
    | Some c => (Return c, st)
    end.

(** [get_job_openings] *)
Definition get_job_openings (query_text : string) (max_results : Z)
  : M (state Client) string :=
  try_except
    (query <- lift (JobOpeningQuery_new query_text max_results) ;;
     in_world (_log ("Processing query: '" +:+ models.query_text query
                       +:+ "' (max_results=" +:+ str_int (models.max_results query) +:+ ")")
                 "INFO") ;;;
     client <- get_bedrock_client ;;
     response <- in_world (client_retrieve_job_openings client
                             (models.query_text query) (models.max_results query)) ;;
     ret (_format_job_openings_response response))
    (fun e =>
       match e with
       | BedrockClientError _ =>
           Some (in_world (_log ("Error retrieving job openings: " +:+ exn_str e) "ERROR") ;;;
                 ret FAILED_TO_RETRIEVE)
       | _ =>
           Some (in_world (_log ("Unexpected error: " +:+ exn_str e) "ERROR") ;;;
                 ret UNEXPECTED_ERROR)
       end).

End Tool.

(** The module as deployed: linked with [src.bedrock_client.BedrockClient]. *)
Definition tool `{Runtime} (env : environment) (query_text : string) (max_results : Z)
  : M (state BedrockClient) string :=
  get_job_openings (bedrock_client.__init__ env) bedrock_client.retrieve_job_openings
    query_text max_results.

End server.
Import server.

(** * A sample deployment, for the examples *)

Module sample.

(** One runtime.  Its [py_repr] and [validation_error_str] are stand-ins:
    no example below depends on their text. *)
Definition runtime : Runtime := {|
  py_repr := fun v => "<" +:+ type_name v +:+ ">";
  lax_float := fun v =>
    match v with
    | PyInt z => if (0 <=? z) && (z <? 2 ^ 53)
                 then Some (PrimFloat.of_uint63 (Uint63.of_Z z)) else None
    | _ => None
    end;
  nan_within_bounds := false;
  validation_error_str := fun title errors =>
    str_int (Z.of_nat (length errors)) +:+ " validation error(s) for " +:+ title
|}.

Definition the_settings : Settings := {|
  aws_region := "us-east-1";
  bedrock_knowledge_base_id := "test-kb-id-12345";
  aws_access_key_id := Some "test-access-key";
  aws_secret_access_key := Some "test-secret-key"
|}.

(** The two entries of [tests/test_bedrock_client.py]. *)
Definition entry_se : pyval := PyDict [
  ("content", PyDict [("text", PyStr "Software Engineer - Remote position")]);
  ("score", PyFloat 0.95);
  ("location", PyDict [("type", PyStr "S3");
                       ("s3Location", PyDict [("uri", PyStr "s3://jobs/se.pdf")])]);
  ("metadata", PyDict [("job_id", PyStr "12345"); ("department", PyStr "Engineering")])
].

Definition entry_ds : pyval := PyDict [
  ("content", PyDict [("text", PyStr "Senior Data Scientist position")]);
  ("score", PyFloat 0.87);
  ("location", PyDict [("type", PyStr "S3");
                       ("s3Location", PyDict [("uri", PyStr "s3://jobs/ds.pdf")])]);
  ("metadata", PyDict [("job_id", PyStr "67890"); ("department", PyStr "Data")])
].

(** A service that answers every request with the given entries. *)
Definition answering (entries : list pyval) : boto3_client := {|
  retrieve := fun _ =>
    Return (PyDict [("retrievalResults", PyList entries);
                    ("ResponseMetadata", PyDict [("HTTPStatusCode", PyInt 200)])])
|}.

(** A service whose every request fails with [e]. *)
Definition failing (e : exn) : boto3_client := {| retrieve := fun _ => Raise e |}.

Definition env_with (handle : boto3_client) : environment := {|
  get_settings := Return the_settings;
  boto3_client_new := fun _ _ => Return handle
|}.

Definition client_with (handle : boto3_client) : BedrockClient := {|
  settings := the_settings;
  knowledge_base_id := bedrock_knowledge_base_id the_settings;
  client := handle
|}.

Definition quiet : io := {| stderr := []; requests := [] |}.

(** The module before its first invocation. *)
Definition fresh : state BedrockClient := {| world := quiet; _bedrock_client := None |}.

End sample.

(** * Properties *)

(** ** Rendering of floats *)

Example format_1f_95 : format_1f (0.95 * 100)%float = "95.0".
Proof. vm_compute. reflexivity. Qed.
Example format_1f_87 : format_1f (0.87 * 100)%float = "87.0".
Proof. vm_compute. reflexivity. Qed.
Example format_1f_small : format_1f (0.0004 * 100)%float = "0.0".
Proof. vm_compute. reflexivity. Qed.
Example format_1f_tie : format_1f (0.25)%float = "0.2".
Proof. vm_compute. reflexivity. Qed.
Example format_1f_neg : format_1f (-0.04)%float = "-0.0".
Proof. vm_compute. reflexivity. Qed.
Example format_1f_big : format_1f (123456.789)%float = "123456.8".
Proof. vm_compute. reflexivity. Qed.


(** ** src/config.py *)

(** C10: [get_boto3_config] hands the credential pair to the client exactly
    when both the access key id and the secret are present and non-empty;
    otherwise, and in particular when only one of the two is given, the
    configuration holds the region and nothing else. *)
Theorem get_boto3_config_credentials (self : Settings) :
  let config := get_boto3_config self in
  let both := truthy_str (aws_access_key_id self) && truthy_str (aws_secret_access_key self) in
  config !! "region_name" = Some (aws_region self)
  /\ (is_Some (config !! "aws_access_key_id") <-> both = true)
  /\ (is_Some (config !! "aws_secret_access_key") <-> both = true)
  /\ (if both
      then config !! "aws_access_key_id" = aws_access_key_id self
           /\ config !! "aws_secret_access_key" = aws_secret_access_key self
      else config = {[ "region_name" := aws_region self ]}).
Proof.
  intros config both. subst config both. unfold get_boto3_config.
  destruct (aws_access_key_id self) as [k|], (aws_secret_access_key self) as [s|];
    cbn [truthy_str andb default];
    try destruct (negb (k =? "")%string); try destruct (negb (s =? "")%string);
    cbn [andb];
    repeat split; intros;
    repeat (rewrite lookup_insert_ne by done);
    rewrite ?lookup_insert_eq, ?lookup_singleton_eq, ?lookup_singleton_ne by done;
    try done; try (by eexists); try (by destruct H as [? [=]]).
Qed.

Example get_boto3_config_secret_only :
  get_boto3_config {| aws_region := "eu-west-1"; bedrock_knowledge_base_id := "kb";
                      aws_access_key_id := None;
                      aws_secret_access_key := Some "secret" |}
  = {[ "region_name" := "eu-west-1" ]}.
Proof. reflexivity. Qed.

Example get_boto3_config_empty_key :
  get_boto3_config {| aws_region := "eu-west-1"; bedrock_knowledge_base_id := "kb";
                      aws_access_key_id := Some "";
                      aws_secret_access_key := Some "secret" |}
  = {[ "region_name" := "eu-west-1" ]}.
Proof. reflexivity. Qed.

Example get_boto3_config_both :
  let config := get_boto3_config sample.the_settings in
  config !! "region_name" = Some "us-east-1"
  /\ config !! "aws_access_key_id" = Some "test-access-key"
  /\ config !! "aws_secret_access_key" = Some "test-secret-key"
  /\ size config = 3%nat.
Proof. vm_compute. repeat split. Qed.

(** ** src/models.py *)

Lemma JobOpeningQuery_new_valid (q : string) (n : Z) :
  q <> "" -> 0 < n <= 100 ->
  JobOpeningQuery_new q n = Return {| query_text := q; max_results := n |}.
Proof.
  intros Hq Hn. unfold JobOpeningQuery_new, check_query_text, check_max_results.
  destruct q as [|c q]; [congruence|]. cbn [String.length].
  replace (Z.of_nat (S (String.length q)) <? 1) with false by (symmetry; apply Z.ltb_ge; lia).
  replace (0 <? n) with true by (symmetry; apply Z.ltb_lt; lia).
  replace (n <=? 100) with true by (symmetry; apply Z.leb_le; lia).
  reflexivity.
Qed.

Lemma JobOpeningQuery_new_invalid (q : string) (n : Z) :
  q = "" \/ n < 1 \/ 100 < n ->
  exists errors, JobOpeningQuery_new q n = Raise (ValidationError "JobOpeningQuery" errors).
Proof.
  intros Hbad. unfold JobOpeningQuery_new, check_query_text, check_max_results.
  destruct (Z.of_nat (String.length q) <? 1) eqn:Hlen;
    destruct ((0 <? n) && (n <=? 100)) eqn:Hrange; cbn; eauto.
  exfalso. apply andb_prop in Hrange as [H0 H100].
  apply Z.ltb_lt in H0. apply Z.leb_le in H100. apply Z.ltb_ge in Hlen.
  destruct Hbad as [-> | [? | ?]]; [cbn in Hlen|..]; lia.
Qed.

(** What the constructor of a JobOpeningQuery raises is a ValidationError. *)
Lemma JobOpeningQuery_new_raises (q : string) (n : Z) (e : exn) :
  JobOpeningQuery_new q n = Raise e ->
  exists errors, e = ValidationError "JobOpeningQuery" errors.
Proof.
  unfold JobOpeningQuery_new.
  destruct (check_query_text q), (check_max_results n); intros [= <-]; eauto.
Qed.

(** A negative [total_results] does not pass [ge=0]: the constructor raises,
    and the field validator never sees the value. *)
Lemma JobOpeningsResponse_new_negative (rs : option (list JobOpeningResult)) (v : Z) :
  v < 0 ->
  JobOpeningsResponse_new rs (Some v)
  = Raise (ValidationError "JobOpeningsResponse" [("total_results", PyInt v)]).
Proof.
  intros Hv. unfold JobOpeningsResponse_new.
  replace (0 <=? v) with false by (symmetry; apply Z.leb_gt; lia). reflexivity.
Qed.

(** When [total_results] is left out the field validator is not run and the
    default stays, whatever [results] holds. *)
Lemma JobOpeningsResponse_new_default (rs : option (list JobOpeningResult)) :
  JobOpeningsResponse_new rs None = Return {| results := default [] rs; total_results := 0 |}.
Proof. reflexivity. Qed.

(** C1, as the code has it: a construction that supplies a non-negative
    [total_results], whatever its value, yields an object whose
    [total_results] is [len(results)]; the supplied value is replaced by the
    true count without an error, also when [results] is left out and
    defaults to the empty list. *)
Theorem total_results_is_len_results (rs : option (list JobOpeningResult)) (v : Z) :
  0 <= v ->
  exists response,
    JobOpeningsResponse_new rs (Some v) = Return response
    /\ results response = default [] rs
    /\ total_results response = Z.of_nat (length (results response)).
Proof.
  intros Hv. unfold JobOpeningsResponse_new.
  replace (0 <=? v) with true by (symmetry; apply Z.leb_le; lia).
  eexists. split; [reflexivity|]. split; reflexivity.
Qed.

Lemma total_results_is_len_results_witness :
  exists response,
    JobOpeningsResponse_new None (Some 7) = Return response
    /\ results response = []
    /\ total_results response = Z.of_nat (length (results response)).
Proof. apply (total_results_is_len_results None 7). lia. Defined.

(** C1, as the claim states it, fails: an attempt to set [total_results] to
    -1 is not corrected to the true count 0, the construction raises. *)
Lemma total_results_negative_not_corrected :
  JobOpeningsResponse_new (Some []) (Some (-1))
  = Raise (ValidationError "JobOpeningsResponse" [("total_results", PyInt (-1))]).
Proof. reflexivity. Qed.

(** ** Rounding to one decimal *)

(** [round_half_even] picks an integer nearest to the quotient. *)
Lemma round_half_even_nearest (num den : Z) :
  0 <= num -> 0 < den ->
  0 <= round_half_even num den
  /\ 2 * Z.abs (num - den * round_half_even num den) <= den.
Proof.
  intros Hnum Hden. unfold round_half_even.
  pose proof (Z.div_mod num den ltac:(lia)) as Hdm.
  pose proof (Z.mod_pos_bound num den Hden) as Hr.
  pose proof (Z.div_pos num den Hnum Hden) as Hq.
  destruct (2 * (num mod den) <? den) eqn:Hlt; [apply Z.ltb_lt in Hlt; lia|].
  apply Z.ltb_ge in Hlt.
  destruct (den <? 2 * (num mod den)) eqn:Hgt;
    [apply Z.ltb_lt in Hgt; lia | apply Z.ltb_ge in Hgt].
  destruct (Z.even (num / den)); lia.
Qed.


(** The printed tenths are nearest to the exact value [m * 2^e]. *)
Lemma tenths_nearest (m : positive) (e : Z) :
  e < 0 -> 2 * Z.abs (10 * Z.pos m - 2 ^ (- e) * tenths m e) <= 2 ^ (- e).
Proof.
  intros He. unfold tenths.
  replace (0 <=? e) with false by (symmetry; apply Z.leb_gt; lia).
  apply round_half_even_nearest; [lia | apply Z.pow_pos_nonneg; lia].
Qed.



(** ** src/server.py: the formatter *)

Section FormatterFacts.
Context `{Runtime}.

Lemma append_metadata_app (lines : list string) (md : dict) :
  append_metadata lines md = lines ++ map metadata_line md.
Proof.
  unfold append_metadata. revert lines.
  induction md as [|kv md IH]; intros lines; cbn [fold_left map].
  - by rewrite app_nil_r.
  - rewrite IH, <- app_assoc. reflexivity.
Qed.

Lemma append_source_app (lines : list string) (src : SourceMetadata) :
  append_source lines src = lines ++ append_source [] src.
Proof.
  unfold append_source.
  destruct (truthy_dict (s3_location src)); [|destruct (truthy_dict (web_location src))];
    cbn [app]; rewrite <- ?app_assoc; reflexivity.
Qed.

Ltac norm_lines :=
  rewrite ?append_metadata_app;
  rewrite ?(append_source_app (_ ++ _)), ?(append_source_app (_ :: _));
  cbn [app]; rewrite <- ?app_assoc; cbn [app].

Lemma append_result_app (lines : list string) (idx : Z) (r : JobOpeningResult) :
  append_result lines idx r = lines ++ result_lines idx r.
Proof.
  unfold result_lines, append_result.
  destruct (score r), (metadata r) as [|kv md], (source r) as [src|];
    norm_lines; reflexivity.
Qed.

Lemma append_results_app (lines : list string) (idx : Z) (rs : list JobOpeningResult) :
  append_results lines idx rs = lines ++ append_results [] idx rs.
Proof.
  revert lines idx. induction rs as [|r rs IH]; intros lines idx; cbn [append_results].
  - by rewrite app_nil_r.
  - rewrite IH, (IH (append_result [] idx r)), append_result_app, <- app_assoc.
    reflexivity.
Qed.

(** The loop lays the results' blocks one after the other, in input order. *)
Lemma append_results_cons (lines : list string) (idx : Z) (r : JobOpeningResult)
    (rs : list JobOpeningResult) :
  append_results lines idx (r :: rs)
  = lines ++ result_lines idx r ++ append_results [] (idx + 1) rs.
Proof.
  cbn [append_results]. rewrite append_results_app, append_result_app, <- app_assoc.
  reflexivity.
Qed.



End FormatterFacts.

(** C6: a response whose [total_results] is 0 is rendered as the sentinel
    line, exactly, and nothing else. *)
Theorem format_zero_results `{Runtime} (response : JobOpeningsResponse) :
  total_results response = 0 ->
  _format_job_openings_response response = "No job openings found matching your query.".
Proof.
  intros Hzero. unfold _format_job_openings_response. rewrite Hzero. reflexivity.
Qed.

Lemma format_zero_results_witness :
  @_format_job_openings_response sample.runtime {| results := []; total_results := 0 |}
  = "No job openings found matching your query.".
Proof.
  apply (@format_zero_results sample.runtime {| results := []; total_results := 0 |}).
  reflexivity.
Defined.


(** The first result of the test suite's fixture, alone in its block. *)
Example score_rendering_095 :
  @result_lines sample.runtime 1
    {| content := "Software Engineer - Remote position"; score := Some 0.95%float;
       metadata := [("job_id", PyStr "12345")]; source := None |}
  = [nl +:+ "--- Job Opening #1 ---";
     "Relevance Score: 95.0%";
     nl +:+ "Software Engineer - Remote position";
     nl +:+ "Metadata:";
     "  - job_id: 12345";
     ""].
Proof. vm_compute. reflexivity. Qed.

Example score_rendering_absent :
  @result_lines sample.runtime 3
    {| content := "Minimal job posting"; score := None; metadata := []; source := None |}
  = [nl +:+ "--- Job Opening #3 ---"; nl +:+ "Minimal job posting"; ""].
Proof. vm_compute. reflexivity. Qed.



(** ** src/server.py: the tool entry point *)

Section ToolFacts.
Context `{Runtime}.
Context {Client : Type}.
Variable BedrockClient_new : M io Client.
Variable client_retrieve_job_openings : Client -> string -> Z -> M io JobOpeningsResponse.

#[local] Abbreviation get_job_openings :=
  (get_job_openings BedrockClient_new client_retrieve_job_openings).

(** The client is built on first use and kept. *)
Lemma get_bedrock_client_first_use (st : state Client) (c : Client) (w : io) :
  _bedrock_client st = None ->
  BedrockClient_new (world st) = (Return c, w) ->
  get_bedrock_client BedrockClient_new st
  = (Return c, {| world := w; _bedrock_client := Some c |}).
Proof.
  intros Hnone Hnew. unfold get_bedrock_client, bind, in_world.
  rewrite Hnone, Hnew. reflexivity.
Qed.

(** Once built, the client is reused: nothing is constructed again. *)
Lemma get_bedrock_client_cached (st : state Client) (c : Client) :
  _bedrock_client st = Some c ->
  get_bedrock_client BedrockClient_new st = (Return c, st).
Proof. intros Hsome. unfold get_bedrock_client. by rewrite Hsome. Qed.

(** A rejected query: one line is logged, nothing else happens. *)
Lemma get_job_openings_rejected (q : string) (n : Z) (st : state Client) (e : exn) :
  JobOpeningQuery_new q n = Raise e ->
  get_job_openings q n st
  = (Return UNEXPECTED_ERROR,
     logged ("[MCP Server] [ERROR] Unexpected error: " +:+ exn_str e) st).
Proof.
  intros Hraise. destruct (JobOpeningQuery_new_raises q n e Hraise) as [errors ->].
  unfold server.get_job_openings, try_except, bind, lift. rewrite Hraise.
  reflexivity.
Qed.

(** An accepted query, step by step. *)
Lemma get_job_openings_accepted (q : string) (n : Z) (st : state Client)
    (query : JobOpeningQuery) :
  JobOpeningQuery_new q n = Return query ->
  get_job_openings q n st
  = match get_bedrock_client BedrockClient_new (logged (processing_line query) st) with
    | (Raise e, st1) =>
        (Return (user_message e),
         logged ("[MCP Server] [ERROR] "
                   +:+ match e with
                       | BedrockClientError _ => "Error retrieving job openings: "
                       | _ => "Unexpected error: "
                       end +:+ exn_str e) st1)
    | (Return c, st1) =>
        match in_world (client_retrieve_job_openings c (query_text query) (max_results query)) st1 with
        | (Raise e, st2) =>
            (Return (user_message e),
             logged ("[MCP Server] [ERROR] "
                       +:+ match e with
                           | BedrockClientError _ => "Error retrieving job openings: "
                           | _ => "Unexpected error: "
                           end +:+ exn_str e) st2)
        | (Return response, st2) => (Return (_format_job_openings_response response), st2)
        end
    end.
Proof.
  intros Hquery.
  unfold server.get_job_openings, try_except, bind, lift. rewrite Hquery.
  change (in_world (server._log _ "INFO") st) with (Return tt, logged (processing_line query) st).
  cbn beta iota.
  destruct (get_bedrock_client BedrockClient_new _) as [[c|e] st1].
  - destruct (in_world _ st1) as [[response|e] st2]; [reflexivity|].
    destruct e; reflexivity.
  - destruct e; reflexivity.
Qed.

(** The boundary turns whatever an accepted query runs into into a string. *)
Lemma get_job_openings_total (q : string) (n : Z) (st : state Client) :
  exists s st', get_job_openings q n st = (Return s, st').
Proof.
  destruct (JobOpeningQuery_new q n) as [query|e] eqn:Hquery.
  - rewrite (get_job_openings_accepted q n st query Hquery).
    destruct (get_bedrock_client BedrockClient_new _) as [[c|e] st1]; [|eauto].
    destruct (in_world _ st1) as [[response|e] st2]; eauto.
  - rewrite (get_job_openings_rejected q n st e Hquery). eauto.
Qed.

End ToolFacts.

(** C2: when [query_text] is empty or [max_results] lies outside [1,100],
    building the JobOpeningQuery raises a validation failure and the tool
    stops there: whatever retrieval client the module is linked with, the
    client is neither built nor called, and no search request is issued;
    the only effect is one line on the diagnostic stream. *)
Theorem invalid_query_never_searches `{Runtime} {Client : Type}
    (BedrockClient_new : M io Client)
    (client_retrieve_job_openings : Client -> string -> Z -> M io JobOpeningsResponse)
    (q : string) (n : Z) (st : state Client) :
  q = "" \/ n < 1 \/ 100 < n ->
  exists errors,
    let e := ValidationError "JobOpeningQuery" errors in
    let st' := snd (get_job_openings BedrockClient_new client_retrieve_job_openings q n st) in
    JobOpeningQuery_new q n = Raise e
    /\ st' = logged ("[MCP Server] [ERROR] Unexpected error: " +:+ exn_str e) st
    /\ requests (world st') = requests (world st)
    /\ _bedrock_client st' = _bedrock_client st.
Proof.
  intros Hbad. destruct (JobOpeningQuery_new_invalid q n Hbad) as [errors Hraise].
  exists errors. cbn zeta.
  rewrite (get_job_openings_rejected _ _ q n st _ Hraise).
  repeat split; [exact Hraise].
Qed.

Lemma invalid_query_never_searches_witness :
  exists errors,
    let e := ValidationError "JobOpeningQuery" errors in
    let st' := snd (@tool sample.runtime (sample.env_with (sample.answering [])) "engineer" 0
                      sample.fresh) in
    JobOpeningQuery_new "engineer" 0 = Raise e
    /\ st' = logged ("[MCP Server] [ERROR] Unexpected error: " +:+ @exn_str sample.runtime e)
               sample.fresh
    /\ requests (world st') = requests (world sample.fresh)
    /\ _bedrock_client st' = _bedrock_client sample.fresh.
Proof.
  apply (@invalid_query_never_searches sample.runtime). right. left. lia.
Defined.

(** C3: for every input and every behaviour of the retrieval client, the
    tool entry point returns a string and raises nothing; the string is
    one of the two fixed messages unless the query was accepted, a client
    was obtained and its retrieval returned a response, in which case it is
    that response, formatted. *)
Theorem get_job_openings_returns_string `{Runtime} {Client : Type}
    (BedrockClient_new : M io Client)
    (client_retrieve_job_openings : Client -> string -> Z -> M io JobOpeningsResponse)
    (q : string) (n : Z) (st : state Client) :
  exists s st',
    get_job_openings BedrockClient_new client_retrieve_job_openings q n st = (Return s, st')
    /\ (s = "Failed to retrieve job openings. Please try again later."
        \/ s = "An unexpected error occurred. Please try again later."
        \/ exists query c st1 response,
             JobOpeningQuery_new q n = Return query
             /\ get_bedrock_client BedrockClient_new (logged (processing_line query) st)
                = (Return c, st1)
             /\ in_world (client_retrieve_job_openings c (query_text query) (max_results query))
                  st1 = (Return response, st')
             /\ s = _format_job_openings_response response).
Proof.
  destruct (JobOpeningQuery_new q n) as [query|e] eqn:Hquery.
  - rewrite (get_job_openings_accepted _ _ q n st query Hquery).
    destruct (get_bedrock_client BedrockClient_new _) as [[c|e] st1] eqn:Hclient.
    + destruct (in_world _ st1) as [[response|e] st2] eqn:Hretrieve.
      * do 2 eexists. split; [reflexivity|]. right. right.
        exists query, c, st1, response. repeat split; assumption.
      * do 2 eexists. split; [reflexivity|]. destruct e; cbn; auto.
    + do 2 eexists. split; [reflexivity|]. destruct e; cbn; auto.
  - rewrite (get_job_openings_rejected _ _ q n st e Hquery).
    do 2 eexists. split; [reflexivity|]. auto.
Qed.

(** C8, as the code has it: a ValidationError raised while the tool builds
    the JobOpeningQuery is not a BedrockClientError, so the first handler
    passes it on; the handler for [Exception] catches it, and the tool
    returns the fixed unexpected-error message. *)
Theorem validation_error_is_caught `{Runtime} {Client : Type}
    (BedrockClient_new : M io Client)
    (client_retrieve_job_openings : Client -> string -> Z -> M io JobOpeningsResponse)
    (q : string) (n : Z) (st : state Client) (e : exn) :
  JobOpeningQuery_new q n = Raise e ->
  (exists errors, e = ValidationError "JobOpeningQuery" errors)
  /\ (forall text, e <> BedrockClientError text)
  /\ exists st',
       get_job_openings BedrockClient_new client_retrieve_job_openings q n st
       = (Return "An unexpected error occurred. Please try again later.", st').
Proof.
  intros Hraise. destruct (JobOpeningQuery_new_raises q n e Hraise) as [errors ->].
  split; [eauto|]. split; [discriminate|].
  rewrite (get_job_openings_rejected _ _ q n st _ Hraise). eauto.
Qed.

Lemma validation_error_is_caught_witness :
  (exists errors, ValidationError "JobOpeningQuery" [("max_results", PyInt 101)]
                  = ValidationError "JobOpeningQuery" errors)
  /\ (forall text, ValidationError "JobOpeningQuery" [("max_results", PyInt 101)]
                   <> BedrockClientError text)
  /\ exists st',
       @tool sample.runtime (sample.env_with (sample.answering [])) "engineer" 101 sample.fresh
       = (Return "An unexpected error occurred. Please try again later.", st').
Proof.
  apply (@validation_error_is_caught sample.runtime). reflexivity.
Defined.

(** C8, as the claim states it, fails: with an empty [query_text] the
    constructor raises a ValidationError inside the tool, and the tool
    returns a message instead of letting the exception out. *)
Lemma validation_error_does_not_propagate :
  JobOpeningQuery_new "" 10 = Raise (ValidationError "JobOpeningQuery" [("query_text", PyStr "")])
  /\ fst (@tool sample.runtime (sample.env_with (sample.answering [])) "" 10 sample.fresh)
     = Return "An unexpected error occurred. Please try again later.".
Proof. split; reflexivity. Qed.

(** ** src/bedrock_client.py *)

Lemma append_assoc (a b c : string) : (a +:+ b) +:+ c = a +:+ b +:+ c.
Proof.
  induction a as [|x a IH]; [reflexivity|].
  change (String x ((a +:+ b) +:+ c) = String x (a +:+ b +:+ c)). by rewrite IH.
Qed.

Lemma append_empty_r (a : string) : a +:+ "" = a.
Proof.
  induction a as [|x a IH]; [reflexivity|].
  change (String x (a +:+ "") = String x a). by rewrite IH.
Qed.

Lemma contains_prefix (a b : string) : contains (a +:+ b) a.
Proof. exists "", b. reflexivity. Qed.

Lemma contains_suffix (a b : string) : contains (a +:+ b) b.
Proof. exists a, "". by rewrite append_empty_r. Qed.

Lemma contains_refl (a : string) : contains a a.
Proof. exists "", "". by rewrite append_empty_r. Qed.

Lemma contains_append_l (a s sub : string) : contains s sub -> contains (a +:+ s) sub.
Proof. intros (pre & post & ->). exists (a +:+ pre), post. by rewrite !append_assoc. Qed.

Section ClientFacts.
Context `{Runtime}.

(** The cause string of the error a failed search call is turned into. *)
Lemma retrieve_job_openings_failure (self : BedrockClient) (q : string) (n : Z)
    (w : io) (e : exn) :
  retrieve (client self) (retrieve_request self q n) = Raise e ->
  exists text w',
    retrieve_job_openings self q n w = (Raise (BedrockClientError text), w')
    /\ requests w' = requests w ++ [retrieve_request self q n]
    /\ text = match e with
              | ClientError err _ =>
                  "AWS error during retrieval: "
                    +:+ py_str (dict_get_default (default [] err) "Code" (PyStr "Unknown"))
                    +:+ " - "
                    +:+ py_str (dict_get_default (default [] err) "Message" (PyStr (exn_str e)))
              | BotoCoreError _ => "Failed to retrieve job openings: " +:+ exn_str e
              | _ => "Unexpected error during retrieval: " +:+ exn_str e
              end.
Proof.
  intros Hfail.
  unfold retrieve_job_openings, try_except, bind, call_retrieve, bedrock_client._log, print_stderr.
  cbn [stderr requests]. rewrite Hfail.
  destruct e; cbn; do 2 eexists; repeat split.
Qed.

(** What building a client comes to: a failure to read the settings goes
    through as it is, a failure of [boto3.client] becomes a
    BedrockClientError; nothing of it depends on the diagnostic stream. *)
Lemma init_outcome (env : environment) (w : io) :
  fst (bedrock_client.__init__ env w)
  = match get_settings env with
    | Raise e => Raise e
    | Return s =>
        match boto3_client_new env "bedrock-agent-runtime" (get_boto3_config s) with
        | Return handle =>
            Return {| settings := s; knowledge_base_id := bedrock_knowledge_base_id s;
                      client := handle |}
        | Raise e =>
            Raise (BedrockClientError ("Failed to initialize Bedrock client: " +:+ exn_str e))
        end
    end.
Proof.
  unfold bedrock_client.__init__, try_except, bind, lift.
  destruct (get_settings env) as [s|e]; [|reflexivity].
  destruct (boto3_client_new env _ _) as [handle|e]; reflexivity.
Qed.

(** The client an invocation works with, cached or built on first use, is
    the same whatever has been logged before. *)
Lemma get_bedrock_client_logged (env : environment) (line : string)
    (st : state BedrockClient) :
  fst (get_bedrock_client (bedrock_client.__init__ env) (logged line st))
  = fst (get_bedrock_client (bedrock_client.__init__ env) st).
Proof.
  unfold get_bedrock_client, logged. cbn [_bedrock_client world].
  destruct (_bedrock_client st) as [c|]; [reflexivity|].
  unfold bind, in_world. cbn [world].
  pose proof (init_outcome env (world st)) as H1.
  pose proof (init_outcome env
    {| stderr := stderr (world st) ++ [line]; requests := requests (world st) |}) as H2.
  destruct (bedrock_client.__init__ env (world st)) as [o1 w1].
  destruct (bedrock_client.__init__ env _) as [o2 w2].
  cbn [fst] in H1, H2. rewrite <- H2 in H1. subst o2.
  destruct o1; reflexivity.
Qed.

End ClientFacts.

(** C4: when the search call fails, [retrieve_job_openings] raises a
    BedrockClientError: for a ClientError that carries a code and a message
    its text contains both, for a BotoCoreError or any other exception its
    text contains the description of the failure; and the tool, which was
    given a valid query and works with that client (cached or just built),
    returns exactly the fixed failed-to-retrieve message. *)
Theorem retrieval_failure_at_boundary `{Runtime} (env : environment)
    (self : BedrockClient) (q : string) (n : Z) (st : state BedrockClient) (e : exn) :
  q <> "" -> 0 < n <= 100 ->
  fst (get_bedrock_client (bedrock_client.__init__ env) st) = Return self ->
  retrieve (client self) (retrieve_request self q n) = Raise e ->
  (forall w, exists text w',
      retrieve_job_openings self q n w = (Raise (BedrockClientError text), w')
      /\ match e with
         | ClientError err _ =>
             (forall code,
                 dict_get (default [] err) "Code" = Some (PyStr code) -> contains text code)
             /\ (forall message,
                   dict_get (default [] err) "Message" = Some (PyStr message) ->
                   contains text message)
             /\ (dict_get (default [] err) "Message" = None -> contains text (exn_str e))
         | _ => contains text (exn_str e)
         end)
  /\ fst (tool env q n st) = Return "Failed to retrieve job openings. Please try again later.".
Proof.
  intros Hq Hn Hclient Hfail. split.
  - intros w.
    destruct (retrieve_job_openings_failure self q n w e Hfail) as (text & w' & Hrun & _ & ->).
    do 2 eexists. split; [exact Hrun|].
    destruct e as [err text| | | | | |]; try apply contains_suffix.
    unfold dict_get_default. repeat split.
    + intros code ->. apply contains_append_l, contains_prefix.
    + intros message ->. do 3 apply contains_append_l. apply contains_refl.
    + intros ->. do 3 apply contains_append_l. apply contains_refl.
  - unfold tool.
    rewrite (get_job_openings_accepted _ _ q n st _ (JobOpeningQuery_new_valid q n Hq Hn)).
    pose proof (get_bedrock_client_logged env
      (processing_line {| query_text := q; max_results := n |}) st) as Hsame.
    rewrite Hclient in Hsame.
    destruct (get_bedrock_client _ (logged _ st)) as [o st1]. cbn [fst] in Hsame. subst o.
    cbn [query_text max_results]. unfold in_world.
    destruct (retrieve_job_openings_failure self q n (world st1) e Hfail)
      as (text & w' & -> & _). reflexivity.
Qed.

Lemma retrieval_failure_at_boundary_witness :
  let e := ClientError (Some [("Code", PyStr "ValidationException");
                              ("Message", PyStr "Invalid KB ID")])
             "An error occurred (ValidationException) when calling the retrieve operation: Invalid KB ID" in
  let self := sample.client_with (sample.failing e) in
  (forall w, exists text w',
      @retrieve_job_openings sample.runtime self "software engineer" 10 w
      = (Raise (BedrockClientError text), w')
      /\ (forall code,
             dict_get [("Code", PyStr "ValidationException"); ("Message", PyStr "Invalid KB ID")]
               "Code" = Some (PyStr code) -> contains text code)
         /\ (forall message,
               dict_get [("Code", PyStr "ValidationException"); ("Message", PyStr "Invalid KB ID")]
                 "Message" = Some (PyStr message) -> contains text message)
         /\ (dict_get [("Code", PyStr "ValidationException"); ("Message", PyStr "Invalid KB ID")]
               "Message" = None -> contains text (@exn_str sample.runtime e)))
  /\ fst (@tool sample.runtime (sample.env_with (sample.failing e)) "software engineer" 10
            sample.fresh)
     = Return "Failed to retrieve job openings. Please try again later.".
Proof.
  intros e self.
  apply (@retrieval_failure_at_boundary sample.runtime
           (sample.env_with (sample.failing e)) self "software engineer" 10 sample.fresh e);
    [discriminate | lia | reflexivity | reflexivity].
Defined.

Example retrieve_job_openings_client_error :
  let e := ClientError (Some [("Code", PyStr "ValidationException");
                              ("Message", PyStr "Invalid KB ID")])
             "An error occurred (ValidationException)" in
  fst (@retrieve_job_openings sample.runtime (sample.client_with (sample.failing e))
         "software engineer" 10 sample.quiet)
  = Raise (BedrockClientError
             "AWS error during retrieval: ValidationException - Invalid KB ID").
Proof. reflexivity. Qed.

Example retrieve_job_openings_network_error :
  fst (@retrieve_job_openings sample.runtime
         (sample.client_with (sample.failing (BotoCoreError "An unspecified error occurred")))
         "software engineer" 10 sample.quiet)
  = Raise (BedrockClientError
             "Failed to retrieve job openings: An unspecified error occurred").
Proof. reflexivity. Qed.

Section ParsingFacts.
Context `{Runtime}.

Lemma omap_Forall2 {A B} (f : A -> outcome B) (l : list A) (ys : list B) :
  omap f l = Return ys <-> Forall2 (fun x y => f x = Return y) l ys.
Proof.
  revert ys. induction l as [|x l IH]; intros ys; cbn [omap].
  - split; [intros [= <-]; constructor | intros Hall; inversion Hall; reflexivity].
  - split.
    + destruct (f x) as [y|e] eqn:Hx; cbn [obind]; [|discriminate].
      destruct (omap f l) as [ys'|e] eqn:Hl; cbn [obind]; [|discriminate].
      intros [= <-]. constructor; [exact Hx | by apply IH].
    + intros Hall. inversion Hall as [|? y ? ys' Hx Hrest]; subst.
      rewrite Hx. cbn [obind]. apply IH in Hrest. rewrite Hrest. reflexivity.
Qed.

(** A comprehension over entries that all get through returns a list. *)
Lemma omap_parses (entries : list pyval) :
  forallb parses entries = true ->
  exists rs, omap _parse_retrieve_result entries = Return rs.
Proof.
  induction entries as [|entry entries IH]; cbn [forallb omap]; [eauto|].
  intros [Hentry Hrest]%andb_prop. unfold parses in Hentry.
  destruct (_parse_retrieve_result entry) as [r|e]; [|discriminate].
  destruct (IH Hrest) as [rs ->]. cbn [obind]. eauto.
Qed.

(** The first entry that does not get through ends the comprehension. *)
Lemma omap_rejects (entries : list pyval) :
  forallb parses entries = false ->
  exists e, omap _parse_retrieve_result entries = Raise e.
Proof.
  induction entries as [|entry entries IH]; cbn [forallb omap]; [discriminate|].
  unfold parses at 1.
  destruct (_parse_retrieve_result entry) as [r|e]; cbn [obind andb]; [|eauto].
  intros Hrest. destruct (IH Hrest) as [e ->]. cbn [obind]. eauto.
Qed.

(** An entry without the four fields. *)
Lemma parse_entry_missing_fields (d : dict) :
  dict_get d "content" = None -> dict_get d "score" = None ->
  dict_get d "metadata" = None -> dict_get d "location" = None ->
  _parse_retrieve_result (PyDict d)
  = Return {| content := ""; score := None; metadata := []; source := None |}.
Proof.
  intros Hcontent Hscore Hmetadata Hlocation.
  unfold _parse_retrieve_result, py_get, dict_get_default.
  rewrite Hcontent, Hscore, Hmetadata, Hlocation. reflexivity.
Qed.

(** A successful search call whose entries all get through. *)
Lemma retrieve_job_openings_success (self : BedrockClient) (q : string) (n : Z) (w : io)
    (answer : dict) (entries : list pyval) (rs : list JobOpeningResult) :
  retrieve (client self) (retrieve_request self q n) = Return (PyDict answer) ->
  dict_get_default answer "retrievalResults" (PyList []) = PyList entries ->
  omap _parse_retrieve_result entries = Return rs ->
  retrieve_job_openings self q n w
  = (Return {| results := rs; total_results := Z.of_nat (length rs) |},
     {| stderr := stderr w
          ++ ["[BedrockClient] [INFO] Retrieving job openings for query: '" +:+ q +:+ "'";
              "[BedrockClient] [INFO] Retrieved "
                +:+ str_int (Z.of_nat (length entries)) +:+ " results"];
        requests := requests w ++ [retrieve_request self q n] |}).
Proof.
  intros Hanswer Hentries Hparse.
  unfold retrieve_job_openings, try_except, bind, lift, call_retrieve,
    bedrock_client._log, print_stderr.
  cbn [stderr requests]. rewrite Hanswer. cbn [py_get]. rewrite Hentries.
  cbn [py_len py_iter obind]. rewrite Hparse.
  unfold JobOpeningsResponse_new.
  replace (0 <=? Z.of_nat (length rs)) with true by (symmetry; apply Z.leb_le; lia).
  cbn [default validate_total_results]. rewrite <- app_assoc. reflexivity.
Qed.

(** What [_parse_retrieve_result] raises is a pydantic ValidationError or an
    AttributeError. *)
Lemma parse_raises (entry : pyval) (e : exn) :
  _parse_retrieve_result entry = Raise e ->
  (exists title errors, e = ValidationError title errors)
  \/ (exists text, e = AttributeError text).
Proof.
  assert (forall v key dflt e', py_get v key dflt = Raise e' ->
            exists text, e' = AttributeError text) as Hget.
  { intros v key dflt e'. destruct v; cbn; intros [= <-]; eauto. }
  unfold _parse_retrieve_result.
  destruct (py_get entry "content" _) as [content_data|e'] eqn:H1; cbn [obind];
    [|intros [= <-]; right; eauto].
  destruct (py_get content_data "text" _) as [content_text|e'] eqn:H2; cbn [obind];
    [|intros [= <-]; right; eauto].
  destruct (py_get entry "score" _) as [score|e'] eqn:H3; cbn [obind];
    [|intros [= <-]; right; eauto].
  destruct (py_get entry "metadata" _) as [metadata|e'] eqn:H4; cbn [obind];
    [|intros [= <-]; right; eauto].
  destruct (py_get entry "location" _) as [location_data|e'] eqn:H5; cbn [obind];
    [|intros [= <-]; right; eauto].
  assert (forall src, JobOpeningResult_new content_text score metadata src = Raise e ->
            exists title errors, e = ValidationError title errors) as Hnew.
  { intros src. unfold JobOpeningResult_new.
    destruct (check_str _ _), (check_score _), (check_dict _ _); intros [= <-]; eauto. }
  destruct (truthy location_data); cbn [obind]; [|intros Hr; left; eauto].
  unfold _parse_source_metadata.
  destruct (py_get location_data "type" _) as [source_type|e'] eqn:H6; cbn [obind];
    [|intros [= <-]; right; eauto].
  destruct (py_get location_data "s3Location" _) as [s3|e'] eqn:H7; cbn [obind];
    [|intros [= <-]; right; eauto].
  destruct (py_get location_data "webLocation" _) as [web|e'] eqn:H8; cbn [obind];
    [|intros [= <-]; right; eauto].
  unfold SourceMetadata_new.
  destruct (check_str _ _), (check_optional_dict _ s3), (check_optional_dict _ web);
    cbn [obind]; try (intros [= <-]; left; eauto).
  intros Hr; left; eauto.
Qed.

(** A successful search call with an entry that does not get through: the
    whole call fails, no partial response is returned. *)
Lemma retrieve_job_openings_rejects (self : BedrockClient) (q : string) (n : Z) (w : io)
    (answer : dict) (entries : list pyval) :
  retrieve (client self) (retrieve_request self q n) = Return (PyDict answer) ->
  dict_get_default answer "retrievalResults" (PyList []) = PyList entries ->
  forallb parses entries = false ->
  exists text w', retrieve_job_openings self q n w = (Raise (BedrockClientError text), w').
Proof.
  intros Hanswer Hentries Hbad. destruct (omap_rejects entries Hbad) as [e He].
  assert ((exists title errors, e = ValidationError title errors)
          \/ (exists text, e = AttributeError text)) as Hclass.
  { clear -He. induction entries as [|entry entries IH]; cbn [omap] in He; [discriminate|].
    destruct (_parse_retrieve_result entry) as [r|e'] eqn:Hentry; cbn [obind] in He.
    - destruct (omap _ entries) as [rs|e'']; cbn [obind] in He; [discriminate|].
      injection He as <-. by apply IH.
    - injection He as <-. by apply (parse_raises entry). }
  unfold retrieve_job_openings, try_except, bind, lift, call_retrieve,
    bedrock_client._log, print_stderr.
  cbn [stderr requests]. rewrite Hanswer. cbn [py_get]. rewrite Hentries.
  cbn [py_len py_iter obind]. rewrite He.
  destruct Hclass as [(title & errors & ->) | (text & ->)]; cbn; eauto.
Qed.

(** A score above 1 (or below 0) does not pass the bounds of the result
    model, whatever else the entry holds. *)
Lemma parse_score_out_of_bounds (d : dict) (f : float) :
  dict_get d "score" = Some (PyFloat f) ->
  PrimFloat.is_nan f = false ->
  PrimFloat.leb 0 f && PrimFloat.leb f 1 = false ->
  parses (PyDict d) = false.
Proof.
  intros Hscore Hnan Hbounds.
  unfold parses, _parse_retrieve_result, py_get at 1 3 4 5, dict_get_default.
  rewrite Hscore. cbn [obind default from_option id].
  destruct (py_get _ "text" _) as [content_text|e]; cbn [obind]; [|reflexivity].
  destruct (if truthy _ then _ else _) as [src|e]; cbn [obind]; [|reflexivity].
  assert (check_score (PyFloat f) = reject "score" (PyFloat f)) as Hcheck
    by (unfold check_score, within_bounds; by rewrite Hnan, Hbounds).
  unfold JobOpeningResult_new. rewrite Hcheck.
  destruct (check_str _ content_text); reflexivity.
Qed.

(** On an entry of the documented shape whose score, if any, is within
    bounds, the code follows the parsing rule. *)
Lemma parse_follows_parsing_rule (entry : raw_entry) :
  score_within_bounds entry ->
  _parse_retrieve_result (document_of entry) = Return (parsing_rule entry).
Proof.
  assert (forall f, within_bounds f = true -> check_score (PyFloat f) = inr (Some f))
    as Hcheck by (intros f Hf; unfold check_score; by rewrite Hf).
  destruct entry as [text score md loc]. unfold score_within_bounds. cbn [raw_score].
  intros Hscore.
  destruct text as [t|], score as [f|], md as [m|], loc as [[[ty|] [s3|] [web|]]|];
    unfold _parse_retrieve_result, document_of, document_of_location, item, parsing_rule;
    cbn -[check_score JobOpeningResult_new];
    unfold JobOpeningResult_new; rewrite ?(Hcheck _ Hscore); reflexivity.
Qed.

(** Entries of the documented shape, scores within bounds: the response
    holds what the parsing rule gives for each, in the order received. *)
Lemma retrieve_job_openings_documented_entries (self : BedrockClient) (q : string) (n : Z)
    (w : io) (answer : dict) (entries : list raw_entry) :
  retrieve (client self) (retrieve_request self q n) = Return (PyDict answer) ->
  dict_get answer "retrievalResults" = Some (PyList (map document_of entries)) ->
  Forall score_within_bounds entries ->
  fst (retrieve_job_openings self q n w)
  = Return {| results := map parsing_rule entries;
              total_results := Z.of_nat (length entries) |}.
Proof.
  intros Hanswer Hentries Hscores.
  assert (omap _parse_retrieve_result (map document_of entries)
          = Return (map parsing_rule entries)) as Hparse.
  { clear Hentries. induction Hscores as [|entry entries Hentry _ IH]; [reflexivity|].
    cbn [map omap]. rewrite (parse_follows_parsing_rule entry Hentry), IH. reflexivity. }
  assert (dict_get_default answer "retrievalResults" (PyList [])
          = PyList (map document_of entries)) as Hdflt
    by (unfold dict_get_default; by rewrite Hentries).
  rewrite (retrieve_job_openings_success self q n w answer _ _ Hanswer Hdflt Hparse).
  cbn [fst]. by rewrite !length_map.
Qed.

End ParsingFacts.

(** C5, as the code has it: when every entry the service returned gets
    through the result model's validation, [retrieve_job_openings] returns a
    response with exactly one parsed result per entry, in the same order,
    and [total_results] is that count; an entry without content, score,
    metadata and location gets through, as the result with empty content,
    no score, empty metadata and no source. *)
Theorem retrieve_job_openings_parses_every_entry `{Runtime} (self : BedrockClient)
    (q : string) (n : Z) (w : io) (answer : dict) (entries : list pyval) :
  retrieve (client self) (retrieve_request self q n) = Return (PyDict answer) ->
  dict_get answer "retrievalResults" = Some (PyList entries) ->
  forallb parses entries = true ->
  (exists response w',
      retrieve_job_openings self q n w = (Return response, w')
      /\ Forall2 (fun entry r => _parse_retrieve_result entry = Return r)
           entries (results response)
      /\ length (results response) = length entries
      /\ total_results response = Z.of_nat (length entries))
  /\ (forall d,
        dict_get d "content" = None -> dict_get d "score" = None ->
        dict_get d "metadata" = None -> dict_get d "location" = None ->
        parses (PyDict d) = true
        /\ _parse_retrieve_result (PyDict d)
           = Return {| content := ""; score := None; metadata := []; source := None |}).
Proof.
  intros Hanswer Hentries Hparses. split.
  - destruct (omap_parses entries Hparses) as [rs Hrs].
    assert (dict_get_default answer "retrievalResults" (PyList []) = PyList entries) as Hdflt
      by (unfold dict_get_default; by rewrite Hentries).
    rewrite (retrieve_job_openings_success self q n w answer entries rs Hanswer Hdflt Hrs).
    apply omap_Forall2 in Hrs. pose proof (Forall2_length _ _ _ Hrs) as Hlen.
    do 2 eexists. split; [reflexivity|]. cbn [results total_results].
    repeat split; [exact Hrs | by rewrite Hlen | by rewrite Hlen].
  - intros d Hcontent Hscore Hmetadata Hlocation.
    pose proof (parse_entry_missing_fields d Hcontent Hscore Hmetadata Hlocation) as Hparse.
    split; [|exact Hparse]. unfold parses. by rewrite Hparse.
Qed.

Lemma retrieve_job_openings_parses_every_entry_witness :
  let entries := [sample.entry_se; PyDict []; sample.entry_ds] in
  let self := sample.client_with (sample.answering entries) in
  (exists response w',
      @retrieve_job_openings sample.runtime self "software engineer" 10 sample.quiet
      = (Return response, w')
      /\ Forall2 (fun entry r => @_parse_retrieve_result sample.runtime entry = Return r)
           entries (results response)
      /\ length (results response) = length entries
      /\ total_results response = Z.of_nat (length entries))
  /\ (forall d,
        dict_get d "content" = None -> dict_get d "score" = None ->
        dict_get d "metadata" = None -> dict_get d "location" = None ->
        @parses sample.runtime (PyDict d) = true
        /\ @_parse_retrieve_result sample.runtime (PyDict d)
           = Return {| content := ""; score := None; metadata := []; source := None |}).
Proof.
  intros entries self.
  apply (@retrieve_job_openings_parses_every_entry sample.runtime self "software engineer" 10
           sample.quiet
           [("retrievalResults", PyList entries);
            ("ResponseMetadata", PyDict [("HTTPStatusCode", PyInt 200)])]
           entries);
    [reflexivity | reflexivity | vm_compute; reflexivity].
Defined.

(** C5, as the claim states it, fails: the service returns two entries, the
    second with a score of 1.5; no response is produced, the call raises. *)
Lemma retrieve_job_openings_score_above_one :
  exists text,
    fst (@retrieve_job_openings sample.runtime
           (sample.client_with
              (sample.answering
                 [sample.entry_se;
                  PyDict [("content", PyDict [("text", PyStr "Senior Data Scientist position")]);
                          ("score", PyFloat 1.5)]]))
           "software engineer" 10 sample.quiet)
    = Raise (BedrockClientError text).
Proof. eexists. vm_compute. reflexivity. Qed.

(** The entries of the test suite, parsed. *)
Example parse_entry_se :
  @_parse_retrieve_result sample.runtime sample.entry_se
  = Return {| content := "Software Engineer - Remote position";
              score := Some 0.95%float;
              metadata := [("job_id", PyStr "12345"); ("department", PyStr "Engineering")];
              source := Some {| type := "S3";
                                s3_location := Some [("uri", PyStr "s3://jobs/se.pdf")];
                                web_location := None |} |}.
Proof. vm_compute. reflexivity. Qed.

Example parse_entry_minimal :
  @_parse_retrieve_result sample.runtime
    (PyDict [("content", PyDict [("text", PyStr "Minimal job posting")])])
  = Return {| content := "Minimal job posting"; score := None; metadata := [];
              source := None |}.
Proof. vm_compute. reflexivity. Qed.

(** A location without a type falls back to "UNKNOWN". *)
Example parse_entry_unknown_source :
  @_parse_retrieve_result sample.runtime
    (PyDict [("location", PyDict [("webLocation", PyDict [("url", PyStr "https://example.com/job")])])])
  = Return {| content := ""; score := None; metadata := [];
              source := Some {| type := "UNKNOWN"; s3_location := None;
                                web_location := Some [("url", PyStr "https://example.com/job")] |} |}.
Proof. vm_compute. reflexivity. Qed.

(** The end-to-end scenario: two entries with scores 0.95 and 0.87. *)
Example tool_end_to_end :
  fst (@tool sample.runtime
         (sample.env_with (sample.answering
            [PyDict [("content", PyDict [("text", PyStr "Software Engineer - Remote position")]);
                     ("score", PyFloat 0.95)];
             PyDict [("content", PyDict [("text", PyStr "Senior Data Scientist position")]);
                     ("score", PyFloat 0.87)]]))
         "software engineer" 10 sample.fresh)
  = Return ("Found 2 job opening(s):" +:+ nl +:+ nl
            +:+ nl +:+ "--- Job Opening #1 ---" +:+ nl
            +:+ "Relevance Score: 95.0%" +:+ nl
            +:+ nl +:+ "Software Engineer - Remote position" +:+ nl
            +:+ nl
            +:+ nl +:+ "--- Job Opening #2 ---" +:+ nl
            +:+ "Relevance Score: 87.0%" +:+ nl
            +:+ nl +:+ "Senior Data Scientist position" +:+ nl).
Proof. vm_compute. reflexivity. Qed.

(** * Further properties of the code *)

(** ** src/bedrock_client.py: [retrieve_job_openings], every path *)

Section RetrievalPaths.
Context `{Runtime}.

Ltac path_end :=
  cbn; eexists; split; [rewrite <- ?app_assoc; reflexivity | split; [reflexivity | eauto]].

(** Whatever the service does, a call logs the query first, records one
    request, and ends with a response that went through the whole body or
    with a BedrockClientError raised by one of the three handlers. *)
Lemma retrieve_job_openings_paths (self : BedrockClient) (q : string) (n : Z) (w : io) :
  exists more,
    let run := retrieve_job_openings self q n w in
    stderr (snd run)
    = stderr w
        ++ ("[BedrockClient] [INFO] Retrieving job openings for query: '" +:+ q +:+ "'") :: more
    /\ requests (snd run) = requests w ++ [retrieve_request self q n]
    /\ match fst run with
       | Return response =>
           exists answer retrieval_results items,
             retrieve (client self) (retrieve_request self q n) = Return answer
             /\ py_get answer "retrievalResults" (PyList []) = Return retrieval_results
             /\ py_iter retrieval_results = Return items
             /\ omap _parse_retrieve_result items = Return (results response)
             /\ total_results response = Z.of_nat (length (results response))
       | Raise e => exists text, e = BedrockClientError text
       end.
Proof.
  unfold retrieve_job_openings, try_except, bind, lift, call_retrieve,
    bedrock_client._log, print_stderr.
  cbn [stderr requests].
  destruct (retrieve (client self) _) as [answer|e] eqn:Hanswer.
  2:{ destruct e; path_end. }
  destruct (py_get answer "retrievalResults" _) as [rr|e] eqn:Hget.
  2:{ destruct e; path_end. }
  destruct (py_len rr) as [len|e] eqn:Hlen.
  2:{ destruct e; path_end. }
  cbn [stderr requests].
  destruct (py_iter rr) as [items|e] eqn:Hiter; cbn [obind].
  2:{ destruct e; path_end. }
  destruct (omap _parse_retrieve_result items) as [rs|e] eqn:Hparse.
  2:{ destruct e; path_end. }
  unfold JobOpeningsResponse_new.
  replace (0 <=? Z.of_nat (length rs)) with true by (symmetry; apply Z.leb_le; lia).
  cbn. eexists. split; [rewrite <- ?app_assoc; reflexivity|]. split; [reflexivity|].
  exists answer, rr, items. repeat split; assumption.
Qed.

(** A comprehension that returns has parsed every item. *)
Lemma omap_returns_parses (items : list pyval) (rs : list JobOpeningResult) :
  omap _parse_retrieve_result items = Return rs -> forallb parses items = true.
Proof.
  revert rs. induction items as [|item items IH]; intros rs; cbn [omap forallb]; [done|].
  unfold parses at 1. destruct (_parse_retrieve_result item) as [r|e]; cbn [obind]; [|done].
  destruct (omap _ items) as [rs'|e]; cbn [obind]; [|done].
  intros _. by rewrite (IH rs').
Qed.

(** A result that went through the model's constructor has its score, if
    any, within the bounds. *)
Lemma parse_returns_bounded (entry : pyval) (r : JobOpeningResult) :
  _parse_retrieve_result entry = Return r ->
  match score r with Some f => within_bounds f = true | None => True end.
Proof.
  unfold _parse_retrieve_result.
  destruct (py_get entry "content" _) as [content_data|]; cbn [obind]; [|done].
  destruct (py_get content_data "text" _) as [content_text|]; cbn [obind]; [|done].
  destruct (py_get entry "score" _) as [sc|]; cbn [obind]; [|done].
  destruct (py_get entry "metadata" _) as [md|]; cbn [obind]; [|done].
  destruct (py_get entry "location" _) as [location_data|]; cbn [obind]; [|done].
  destruct (if truthy location_data then _ else _) as [src|]; cbn [obind]; [|done].
  unfold JobOpeningResult_new.
  destruct (check_str _ content_text) as [|c]; [done|].
  destruct (check_score sc) as [|s] eqn:Hscore; [done|].
  destruct (check_dict _ md) as [|m]; [done|].
  intros [= <-]. cbn [score].
  unfold check_score in Hscore. destruct sc; try (by injection Hscore as <-);
    match type of Hscore with
    | context [lax_float ?v] =>
        destruct (lax_float v) as [f|]; [|done];
        destruct (within_bounds f) eqn:Hf; [by injection Hscore as <- | done]
    | _ => idtac
    end.
  cbn in Hscore. destruct (within_bounds f) eqn:Hf; [by injection Hscore as <- | done].
Qed.

End RetrievalPaths.

(** X1: [retrieve_job_openings] raises nothing but a BedrockClientError,
    whatever the service returns or raises (a ClientError, a BotoCoreError,
    any other exception, a malformed answer, an entry the models reject). *)
Theorem retrieve_job_openings_raises_only_BedrockClientError `{Runtime}
    (self : BedrockClient) (q : string) (n : Z) (w w' : io) (e : exn) :
  retrieve_job_openings self q n w = (Raise e, w') ->
  exists text, e = BedrockClientError text.
Proof.
  intros Hrun. destruct (retrieve_job_openings_paths self q n w) as (more & _ & _ & Hend).
  rewrite Hrun in Hend. exact Hend.
Qed.

Lemma retrieve_job_openings_raises_only_BedrockClientError_witness :
  let run := @retrieve_job_openings sample.runtime
               (sample.client_with (sample.answering [PyStr "not a mapping"]))
               "engineer" 10 sample.quiet in
  exists text, fst run = Raise (BedrockClientError text).
Proof.
  intros run.
  destruct (@retrieve_job_openings_raises_only_BedrockClientError sample.runtime
              (sample.client_with (sample.answering [PyStr "not a mapping"]))
              "engineer" 10 sample.quiet (snd run)
              (BedrockClientError
                 "Unexpected error during retrieval: 'str' object has no attribute 'get'")
              eq_refl) as [text Htext].
  exists text. rewrite <- Htext. reflexivity.
Defined.

(** X2: every call of [retrieve_job_openings] issues exactly one search
    request, carrying the client's knowledge-base id and the call's query
    text and result cap as they are (also an empty text or a cap out of
    range: the client does not validate); what was requested and logged
    before stays. *)
Theorem retrieve_job_openings_one_request `{Runtime}
    (self : BedrockClient) (q : string) (n : Z) (w : io) :
  let w' := snd (retrieve_job_openings self q n w) in
  requests w' = requests w ++ [{| knowledgeBaseId := knowledge_base_id self;
                                  retrievalQuery_text := q;
                                  numberOfResults := n |}]
  /\ exists lines, stderr w' = stderr w ++ lines.
Proof.
  destruct (retrieve_job_openings_paths self q n w) as (more & Hlog & Hreq & _).
  cbn zeta in *. split; [exact Hreq | eauto].
Qed.

(** X3: a response returned by [retrieve_job_openings] has [total_results]
    equal to the number of its results. *)
Theorem retrieve_job_openings_total_results `{Runtime}
    (self : BedrockClient) (q : string) (n : Z) (w w' : io) (response : JobOpeningsResponse) :
  retrieve_job_openings self q n w = (Return response, w') ->
  total_results response = Z.of_nat (length (results response)).
Proof.
  intros Hrun. destruct (retrieve_job_openings_paths self q n w) as (more & _ & _ & Hend).
  rewrite Hrun in Hend. cbn [fst] in Hend.
  destruct Hend as (answer & rr & items & _ & _ & _ & _ & Htotal). exact Htotal.
Qed.

Lemma retrieve_job_openings_total_results_witness :
  let run := @retrieve_job_openings sample.runtime
               (sample.client_with (sample.answering [sample.entry_se; sample.entry_ds]))
               "engineer" 10 sample.quiet in
  exists response,
    fst run = Return response
    /\ total_results response = Z.of_nat (length (results response)).
Proof.
  intros run. destruct run as [[response|e] w'] eqn:Hrun; [|discriminate].
  exists response. split; [reflexivity|].
  exact (@retrieve_job_openings_total_results sample.runtime _ _ _ _ _ _ Hrun).
Defined.

(** X4: the scores a returned response holds are within the bounds of the
    result model: [retrieve_job_openings] never hands out a result whose
    score is outside [0,1]. *)
Theorem retrieve_job_openings_scores_bounded `{Runtime}
    (self : BedrockClient) (q : string) (n : Z) (w w' : io) (response : JobOpeningsResponse) :
  retrieve_job_openings self q n w = (Return response, w') ->
  Forall (fun r => match score r with Some f => within_bounds f = true | None => True end)
    (results response).
Proof.
  intros Hrun. destruct (retrieve_job_openings_paths self q n w) as (more & _ & _ & Hend).
  rewrite Hrun in Hend. cbn [fst] in Hend.
  destruct Hend as (answer & rr & items & _ & _ & _ & Hparse & _).
  apply omap_Forall2 in Hparse.
  induction Hparse as [|item r items rs Hitem _ IH]; constructor; [|exact IH].
  exact (parse_returns_bounded item r Hitem).
Qed.

Lemma retrieve_job_openings_scores_bounded_witness :
  let run := @retrieve_job_openings sample.runtime
               (sample.client_with (sample.answering [sample.entry_se; sample.entry_ds]))
               "engineer" 10 sample.quiet in
  exists response,
    fst run = Return response
    /\ Forall (fun r => match score r with
                        | Some f => @within_bounds sample.runtime f = true
                        | None => True
                        end) (results response).
Proof.
  intros run. destruct run as [[response|e] w'] eqn:Hrun; [|discriminate].
  exists response. split; [reflexivity|].
  exact (@retrieve_job_openings_scores_bounded sample.runtime _ _ _ _ _ _ Hrun).
Defined.

(** ** The deployed tool: accepted queries *)

Section ToolPaths.
Context `{Runtime}.

(** With a valid query and a client at hand, the tool returns the
    formatted response when the retrieval returns one. *)
Lemma tool_returns_formatted (env : environment) (self : BedrockClient) (q : string) (n : Z)
    (st : state BedrockClient) (response : JobOpeningsResponse) :
  q <> "" -> 0 < n <= 100 ->
  fst (get_bedrock_client (bedrock_client.__init__ env) st) = Return self ->
  (forall w, fst (retrieve_job_openings self q n w) = Return response) ->
  fst (tool env q n st) = Return (_format_job_openings_response response).
Proof.
  intros Hq Hn Hclient Hretrieve. unfold tool.
  rewrite (get_job_openings_accepted _ _ q n st _ (JobOpeningQuery_new_valid q n Hq Hn)).
  pose proof (get_bedrock_client_logged env
    (processing_line {| query_text := q; max_results := n |}) st) as Hsame.
  rewrite Hclient in Hsame.
  destruct (get_bedrock_client _ (logged _ st)) as [o st1]. cbn [fst] in Hsame. subst o.
  cbn [query_text max_results]. unfold in_world.
  specialize (Hretrieve (world st1)).
  destruct (retrieve_job_openings self q n (world st1)) as [o w'].
  cbn [fst] in Hretrieve. subst o. reflexivity.
Qed.

(** An entry of the list that does not get through. *)
Lemma forallb_parses_In (entries : list pyval) (entry : pyval) :
  In entry entries -> parses entry = false -> forallb parses entries = false.
Proof.
  induction entries as [|x entries IH]; cbn [In forallb]; [done|].
  intros [-> | Hin] Hentry; [by rewrite Hentry|].
  rewrite (IH Hin Hentry). apply andb_false_r.
Qed.

(** An entry that does not get through makes the whole call fail. *)
Lemma entry_rejected_fails_call (self : BedrockClient)
    (q : string) (n : Z) (w : io) (answer : dict) (entries : list pyval) (entry : pyval) :
  retrieve (client self) (retrieve_request self q n) = Return (PyDict answer) ->
  dict_get answer "retrievalResults" = Some (PyList entries) ->
  In entry entries -> parses entry = false ->
  exists cause w',
    retrieve_job_openings self q n w
    = (Raise (BedrockClientError ("Unexpected error during retrieval: " +:+ cause)), w').
Proof.
  intros Hanswer Hentries Hin Hentry.
  destruct (omap_rejects entries (forallb_parses_In entries entry Hin Hentry)) as [e He].
  assert ((exists title errors, e = ValidationError title errors)
          \/ (exists text, e = AttributeError text)) as Hclass.
  { clear -He. induction entries as [|x entries IH]; cbn [omap] in He; [discriminate|].
    destruct (_parse_retrieve_result x) as [r|e'] eqn:Hx; cbn [obind] in He.
    - destruct (omap _ entries) as [rs|e'']; cbn [obind] in He; [discriminate|].
      injection He as <-. by apply IH.
    - injection He as <-. by apply (parse_raises x). }
  unfold retrieve_job_openings, try_except, bind, lift, call_retrieve,
    bedrock_client._log, print_stderr.
  cbn [stderr requests]. rewrite Hanswer. cbn [py_get]. unfold dict_get_default.
  rewrite Hentries. cbn [default from_option id py_len py_iter obind]. rewrite He.
  destruct Hclass as [(title & errors & ->) | (text & ->)]; cbn; eauto.
Qed.

End ToolPaths.

(** X5: no partial results.  When the service answers with a list in which
    one entry does not get through the models (not a mapping, a field of the
    wrong type, a score out of bounds), [retrieve_job_openings] returns
    nothing of the list: it raises a BedrockClientError that reports an
    unexpected error. *)
Theorem retrieve_job_openings_no_partial_results `{Runtime} (self : BedrockClient)
    (q : string) (n : Z) (w : io) (answer : dict) (entries : list pyval) (entry : pyval) :
  retrieve (client self) (retrieve_request self q n) = Return (PyDict answer) ->
  dict_get answer "retrievalResults" = Some (PyList entries) ->
  In entry entries -> parses entry = false ->
  exists cause w',
    retrieve_job_openings self q n w
    = (Raise (BedrockClientError ("Unexpected error during retrieval: " +:+ cause)), w').
Proof. exact (entry_rejected_fails_call self q n w answer entries entry). Qed.

Lemma retrieve_job_openings_no_partial_results_witness :
  exists cause w',
    @retrieve_job_openings sample.runtime
      (sample.client_with (sample.answering [sample.entry_se; PyStr "not a mapping"]))
      "engineer" 10 sample.quiet
    = (Raise (BedrockClientError ("Unexpected error during retrieval: " +:+ cause)), w').
Proof.
  apply (@retrieve_job_openings_no_partial_results sample.runtime
           (sample.client_with (sample.answering [sample.entry_se; PyStr "not a mapping"]))
           "engineer" 10 sample.quiet
           [("retrievalResults", PyList [sample.entry_se; PyStr "not a mapping"]);
            ("ResponseMetadata", PyDict [("HTTPStatusCode", PyInt 200)])]
           [sample.entry_se; PyStr "not a mapping"] (PyStr "not a mapping"));
    [reflexivity | reflexivity | right; left; reflexivity | reflexivity].
Defined.

(** X6: when the service's answer has no "retrievalResults" entry, or an
    empty list, the retrieval returns the empty response and the tool,
    given a valid query, returns the no-results sentence. *)
Theorem tool_no_results `{Runtime} (env : environment) (self : BedrockClient)
    (q : string) (n : Z) (st : state BedrockClient) (answer : dict) :
  q <> "" -> 0 < n <= 100 ->
  fst (get_bedrock_client (bedrock_client.__init__ env) st) = Return self ->
  retrieve (client self) (retrieve_request self q n) = Return (PyDict answer) ->
  dict_get answer "retrievalResults" = None
  \/ dict_get answer "retrievalResults" = Some (PyList []) ->
  (forall w, fst (retrieve_job_openings self q n w)
             = Return {| results := []; total_results := 0 |})
  /\ fst (tool env q n st) = Return "No job openings found matching your query.".
Proof.
  intros Hq Hn Hclient Hanswer Hnone.
  assert (forall w, fst (retrieve_job_openings self q n w)
                    = Return {| results := []; total_results := 0 |}) as Hempty.
  { intros w.
    assert (dict_get_default answer "retrievalResults" (PyList []) = PyList []) as Hdflt
      by (unfold dict_get_default; destruct Hnone as [-> | ->]; reflexivity).
    by rewrite (retrieve_job_openings_success self q n w answer [] [] Hanswer Hdflt eq_refl). }
  split; [exact Hempty|].
  by rewrite (tool_returns_formatted env self q n st _ Hq Hn Hclient Hempty).
Qed.

Lemma tool_no_results_witness :
  (forall w, fst (@retrieve_job_openings sample.runtime
                    (sample.client_with {| retrieve := fun _ => Return (PyDict []) |})
                    "nonexistent position" 10 w)
             = Return {| results := []; total_results := 0 |})
  /\ fst (@tool sample.runtime
            (sample.env_with {| retrieve := fun _ => Return (PyDict []) |})
            "nonexistent position" 10 sample.fresh)
     = Return "No job openings found matching your query.".
Proof.
  apply (@tool_no_results sample.runtime
           (sample.env_with {| retrieve := fun _ => Return (PyDict []) |})
           (sample.client_with {| retrieve := fun _ => Return (PyDict []) |})
           "nonexistent position" 10 sample.fresh []);
    [discriminate | lia | reflexivity | reflexivity | left; reflexivity].
Defined.

(** X7: on an entry of the shape the service documents, with a score, if
    any, within bounds, [_parse_retrieve_result] raises nothing and follows
    the parsing rule: the text or the empty string, the score or none, the
    metadata or the empty mapping, and a source built from the location with
    "UNKNOWN" for a missing type and each of the two locations present or
    absent on its own. *)
Theorem parse_documented_entry `{Runtime} (entry : raw_entry) :
  score_within_bounds entry ->
  parses (document_of entry) = true
  /\ _parse_retrieve_result (document_of entry) = Return (parsing_rule entry).
Proof.
  intros Hscore. pose proof (parse_follows_parsing_rule entry Hscore) as Hparse.
  split; [unfold parses; by rewrite Hparse | exact Hparse].
Qed.

Lemma parse_documented_entry_witness :
  let entry :=
    {| raw_text := None; raw_score := Some 0.5%float; raw_metadata := None;
       raw_location_ :=
         Some {| raw_type := None; raw_s3Location := None;
                 raw_webLocation := Some [("url", PyStr "https://example.com/job")] |} |} in
  @parses sample.runtime (document_of entry) = true
  /\ @_parse_retrieve_result sample.runtime (document_of entry)
     = Return {| content := ""; score := Some 0.5%float; metadata := [];
                 source := Some {| type := "UNKNOWN"; s3_location := None;
                                   web_location :=
                                     Some [("url", PyStr "https://example.com/job")] |} |}.
Proof.
  intros entry. apply (@parse_documented_entry sample.runtime entry). reflexivity.
Defined.

(** X8: end to end.  Given a valid query and a service that answers with
    entries of the documented shape, scores within bounds, the tool returns
    the formatted response whose results are what the parsing rule gives
    for each entry, in the order received, and whose count is their
    number. *)
Theorem tool_formats_documented_entries `{Runtime} (env : environment)
    (self : BedrockClient) (q : string) (n : Z) (st : state BedrockClient)
    (answer : dict) (entries : list raw_entry) :
  q <> "" -> 0 < n <= 100 ->
  fst (get_bedrock_client (bedrock_client.__init__ env) st) = Return self ->
  retrieve (client self) (retrieve_request self q n) = Return (PyDict answer) ->
  dict_get answer "retrievalResults" = Some (PyList (map document_of entries)) ->
  Forall score_within_bounds entries ->
  fst (tool env q n st)
  = Return (_format_job_openings_response
              {| results := map parsing_rule entries;
                 total_results := Z.of_nat (length entries) |}).
Proof.
  intros Hq Hn Hclient Hanswer Hentries Hscores.
  apply (tool_returns_formatted env self q n st _ Hq Hn Hclient).
  intros w.
  exact (retrieve_job_openings_documented_entries self q n w answer entries
           Hanswer Hentries Hscores).
Qed.

Lemma tool_formats_documented_entries_witness :
  let entries :=
    [{| raw_text := Some "Software Engineer - Remote position";
        raw_score := Some 0.95%float;
        raw_metadata := Some [("job_id", PyStr "12345")];
        raw_location_ :=
          Some {| raw_type := Some "S3";
                  raw_s3Location := Some [("uri", PyStr "s3://jobs/se.pdf")];
                  raw_webLocation := None |} |};
     {| raw_text := Some "Senior Data Scientist position"; raw_score := None;
        raw_metadata := None; raw_location_ := None |}] in
  let handle := {| retrieve := fun _ =>
                     Return (PyDict [("retrievalResults", PyList (map document_of entries))]) |} in
  fst (@tool sample.runtime (sample.env_with handle) "software engineer" 10 sample.fresh)
  = Return (@_format_job_openings_response sample.runtime
              {| results := map parsing_rule entries; total_results := 2 |}).
Proof.
  intros entries handle.
  apply (@tool_formats_documented_entries sample.runtime (sample.env_with handle)
           (sample.client_with handle) "software engineer" 10 sample.fresh
           [("retrievalResults", PyList (map document_of entries))] entries);
    [discriminate | lia | reflexivity | reflexivity | reflexivity
    | repeat constructor].
Defined.

(** ** src/bedrock_client.py: the location of an entry *)

(** X9: an entry whose "location" is missing or is a value that counts as
    false (None, an empty mapping, an empty string, zero) gets no source:
    [_parse_source_metadata] is not called, so such a location is never
    the reason for a failure. *)
Theorem parse_falsy_location `{Runtime} (d : dict) (r : JobOpeningResult) :
  match dict_get d "location" with
  | Some location_data => truthy location_data = false
  | None => True
  end ->
  _parse_retrieve_result (PyDict d) = Return r ->
  source r = None.
Proof.
  intros Hfalsy. unfold _parse_retrieve_result, py_get at 1 3 4 5, dict_get_default.
  cbn [obind].
  assert (truthy (default PyNone (dict_get d "location")) = false) as ->
    by (destruct (dict_get d "location"); [exact Hfalsy | reflexivity]).
  destruct (py_get _ "text" _) as [content_text|]; cbn [obind]; [|done].
  unfold JobOpeningResult_new.
  destruct (check_str _ content_text); [done|].
  destruct (check_score _); [done|].
  destruct (check_dict _ _); [done|].
  by intros [= <-].
Qed.

Lemma parse_falsy_location_witness :
  exists r,
    @_parse_retrieve_result sample.runtime
      (PyDict [("content", PyDict [("text", PyStr "Job")]); ("location", PyStr "")])
    = Return r
    /\ source r = None.
Proof.
  eexists. split; [reflexivity|].
  apply (@parse_falsy_location sample.runtime
           [("content", PyDict [("text", PyStr "Job")]); ("location", PyStr "")]);
    reflexivity.
Defined.

(** ** src/models.py: the query envelope *)

(** X10: a JobOpeningQuery is built exactly when the text is not empty and
    the cap lies in [1,100]; the two values are taken as they are (no
    trimming of the text, no clamping of the cap). *)
Theorem JobOpeningQuery_accepts_iff (q : string) (n : Z) :
  ((exists query, JobOpeningQuery_new q n = Return query) <-> q <> "" /\ 1 <= n <= 100)
  /\ (forall query, JobOpeningQuery_new q n = Return query ->
        query_text query = q /\ max_results query = n).
Proof.
  split; [split|].
  - intros [query Hquery].
    destruct (String.eqb_spec q "") as [Hq|Hq].
    { destruct (JobOpeningQuery_new_invalid q n (or_introl Hq)) as [errors He]. congruence. }
    split; [exact Hq|].
    destruct (Z_lt_le_dec n 1) as [Hlow|Hlow].
    { destruct (JobOpeningQuery_new_invalid q n (or_intror (or_introl Hlow))) as [errors He].
      congruence. }
    destruct (Z_lt_le_dec 100 n) as [Hhigh|Hhigh]; [|lia].
    destruct (JobOpeningQuery_new_invalid q n (or_intror (or_intror Hhigh))) as [errors He].
    congruence.
  - intros [Hq Hn]. eexists. apply JobOpeningQuery_new_valid; [exact Hq | lia].
  - intros query. unfold JobOpeningQuery_new.
    unfold check_query_text, check_max_results.
    destruct (Z.of_nat (String.length q) <? 1); [done|].
    destruct ((0 <? n) && (n <=? 100)); [|done].
    by intros [= <-].
Qed.

(** ** src/server.py: the client kept by the module *)

(** X11: [get_bedrock_client] builds the client at most once.  After a call
    that returned a client, the global holds that client and every later
    call returns it with no effect at all, whatever constructing a client
    would do then; a call raises only when the global is unset, and leaves
    it unset, so that the next call tries again. *)
Theorem get_bedrock_client_builds_once {Client : Type}
    (BedrockClient_new : M io Client) (st : state Client) :
  match get_bedrock_client BedrockClient_new st with
  | (Return c, st1) =>
      _bedrock_client st1 = Some c
      /\ forall BedrockClient_new', get_bedrock_client BedrockClient_new' st1 = (Return c, st1)
  | (Raise e, st1) => _bedrock_client st = None /\ _bedrock_client st1 = None
  end.
Proof.
  unfold get_bedrock_client at 1.
  destruct (_bedrock_client st) as [c|] eqn:Hglobal.
  - split; [exact Hglobal|]. intros new'. unfold get_bedrock_client. by rewrite Hglobal.
  - unfold bind, in_world. destruct (BedrockClient_new (world st)) as [[c|e] w].
    + split; [reflexivity|]. intros new'. reflexivity.
    + cbn. rewrite Hglobal. split; reflexivity.
Qed.

(** ** The deployed tool: building the client, issuing the request *)

Section DeployedTool.
Context `{Runtime}.

(** Building a client issues no request. *)
Lemma init_requests (env : environment) (w : io) :
  requests (snd (bedrock_client.__init__ env w)) = requests w.
Proof.
  unfold bedrock_client.__init__, try_except, bind, lift, bedrock_client._log, print_stderr.
  destruct (get_settings env) as [s|e]; [|reflexivity].
  destruct (boto3_client_new env _ _) as [handle|e]; reflexivity.
Qed.

(** Obtaining the client issues no request; the global ends up holding the
    client obtained, and stays unset when none was. *)
Lemma get_bedrock_client_state (env : environment) (st : state BedrockClient) :
  let run := get_bedrock_client (bedrock_client.__init__ env) st in
  requests (world (snd run)) = requests (world st)
  /\ match fst run with
     | Return c => _bedrock_client (snd run) = Some c
     | Raise _ => _bedrock_client st = None /\ _bedrock_client (snd run) = None
     end.
Proof.
  unfold get_bedrock_client. destruct (_bedrock_client st) as [c|] eqn:Hglobal.
  - cbn. split; [reflexivity | exact Hglobal].
  - unfold bind, in_world. pose proof (init_requests env (world st)) as Hreq.
    destruct (bedrock_client.__init__ env (world st)) as [[c|e] w]; cbn in *.
    + split; [exact Hreq | reflexivity].
    + rewrite Hglobal. split; [exact Hreq | split; reflexivity].
Qed.

(** With the global unset, obtaining the client comes to building one. *)
Lemma get_bedrock_client_unset (env : environment) (st : state BedrockClient) :
  _bedrock_client st = None ->
  fst (get_bedrock_client (bedrock_client.__init__ env) st)
  = fst (bedrock_client.__init__ env (world st)).
Proof.
  intros Hglobal. unfold get_bedrock_client, bind, in_world. rewrite Hglobal.
  destruct (bedrock_client.__init__ env (world st)) as [[c|e] w]; reflexivity.
Qed.

(** The tool when no client can be obtained. *)
Lemma tool_without_client (env : environment) (q : string) (n : Z)
    (st : state BedrockClient) (e : exn) :
  q <> "" -> 0 < n <= 100 ->
  _bedrock_client st = None ->
  (forall w, fst (bedrock_client.__init__ env w) = Raise e) ->
  let run := tool env q n st in
  fst run = Return (user_message e)
  /\ _bedrock_client (snd run) = None
  /\ requests (world (snd run)) = requests (world st).
Proof.
  intros Hq Hn Hglobal Hinit. cbn zeta. unfold tool.
  rewrite (get_job_openings_accepted _ _ q n st _ (JobOpeningQuery_new_valid q n Hq Hn)).
  set (st0 := logged _ st).
  pose proof (get_bedrock_client_unset env st0 Hglobal) as Hfst.
  rewrite Hinit in Hfst.
  destruct (get_bedrock_client_state env st0) as [Hreq Hkept]. cbn zeta in Hreq, Hkept.
  destruct (get_bedrock_client _ st0) as [o st1]. cbn [fst snd] in Hfst, Hreq, Hkept.
  subst o. destruct Hkept as [_ Hunset]. cbn [fst snd logged world _bedrock_client requests].
  repeat split; [exact Hunset | exact Hreq].
Qed.

End DeployedTool.

(** X12: when [boto3.client] raises while the tool builds its client, the
    tool returns the failed-to-retrieve message; no search request is
    issued and the global stays unset, so the next invocation builds a
    client again. *)
Theorem tool_client_construction_fails `{Runtime} (env : environment) (q : string) (n : Z)
    (st : state BedrockClient) (s : Settings) (e : exn) :
  q <> "" -> 0 < n <= 100 ->
  _bedrock_client st = None ->
  get_settings env = Return s ->
  boto3_client_new env "bedrock-agent-runtime" (get_boto3_config s) = Raise e ->
  let run := tool env q n st in
  fst run = Return "Failed to retrieve job openings. Please try again later."
  /\ _bedrock_client (snd run) = None
  /\ requests (world (snd run)) = requests (world st).
Proof.
  intros Hq Hn Hglobal Hsettings Hboto.
  apply (tool_without_client env q n st
           (BedrockClientError ("Failed to initialize Bedrock client: " +:+ exn_str e))
           Hq Hn Hglobal).
  intros w. rewrite init_outcome. by rewrite Hsettings, Hboto.
Qed.

Lemma tool_client_construction_fails_witness :
  let env := {| get_settings := Return sample.the_settings;
                boto3_client_new := fun _ _ => Raise (OtherException "Unknown service") |} in
  let run := @tool sample.runtime env "engineer" 10 sample.fresh in
  fst run = Return "Failed to retrieve job openings. Please try again later."
  /\ _bedrock_client (snd run) = None
  /\ requests (world (snd run)) = requests (world sample.fresh).
Proof.
  intros env.
  apply (@tool_client_construction_fails sample.runtime env "engineer" 10 sample.fresh
           sample.the_settings (OtherException "Unknown service"));
    [discriminate | lia | reflexivity | reflexivity | reflexivity].
Defined.

(** X13: when reading the settings raises (a required variable is missing)
    while the tool builds its client, the exception is not wrapped in a
    BedrockClientError; the tool catches it all the same and returns the
    unexpected-error message, issues no request and leaves the global
    unset. *)
Theorem tool_settings_fail `{Runtime} (env : environment) (q : string) (n : Z)
    (st : state BedrockClient) (e : exn) :
  q <> "" -> 0 < n <= 100 ->
  _bedrock_client st = None ->
  get_settings env = Raise e ->
  (forall text, e <> BedrockClientError text) ->
  let run := tool env q n st in
  (forall w, fst (bedrock_client.__init__ env w) = Raise e)
  /\ fst run = Return "An unexpected error occurred. Please try again later."
  /\ _bedrock_client (snd run) = None
  /\ requests (world (snd run)) = requests (world st).
Proof.
  intros Hq Hn Hglobal Hsettings Hclass.
  assert (forall w, fst (bedrock_client.__init__ env w) = Raise e) as Hinit
    by (intros w; rewrite init_outcome; by rewrite Hsettings).
  cbn zeta. split; [exact Hinit|].
  replace "An unexpected error occurred. Please try again later." with (user_message e)
    by (destruct e; try reflexivity; by destruct (Hclass text)).
  exact (tool_without_client env q n st e Hq Hn Hglobal Hinit).
Qed.

Lemma tool_settings_fail_witness :
  let e := ValidationError "Settings" [("bedrock_knowledge_base_id", PyNone)] in
  let env := {| get_settings := Raise e;
                boto3_client_new := fun _ _ => Return (sample.answering []) |} in
  let run := @tool sample.runtime env "engineer" 10 sample.fresh in
  (forall w, fst (@bedrock_client.__init__ sample.runtime env w) = Raise e)
  /\ fst run = Return "An unexpected error occurred. Please try again later."
  /\ _bedrock_client (snd run) = None
  /\ requests (world (snd run)) = requests (world sample.fresh).
Proof.
  intros e env.
  apply (@tool_settings_fail sample.runtime env "engineer" 10 sample.fresh e);
    [discriminate | lia | reflexivity | reflexivity | discriminate].
Defined.

(** X14: an invocation with a valid query issues exactly one search
    request, with the knowledge-base id of the client in use and the query
    text and cap the tool was called with, whether the retrieval then
    succeeds or fails; afterwards the global holds that client. *)
Theorem tool_one_request `{Runtime} (env : environment) (self : BedrockClient)
    (q : string) (n : Z) (st : state BedrockClient) :
  q <> "" -> 0 < n <= 100 ->
  fst (get_bedrock_client (bedrock_client.__init__ env) st) = Return self ->
  let st' := snd (tool env q n st) in
  requests (world st')
  = requests (world st) ++ [{| knowledgeBaseId := knowledge_base_id self;
                               retrievalQuery_text := q;
                               numberOfResults := n |}]
  /\ _bedrock_client st' = Some self.
Proof.
  intros Hq Hn Hclient. cbn zeta. unfold tool.
  rewrite (get_job_openings_accepted _ _ q n st _ (JobOpeningQuery_new_valid q n Hq Hn)).
  pose proof (get_bedrock_client_logged env
    (processing_line {| query_text := q; max_results := n |}) st) as Hsame.
  rewrite Hclient in Hsame.
  destruct (get_bedrock_client_state env
    (logged (processing_line {| query_text := q; max_results := n |}) st)) as [Hreq Hkept].
  cbn zeta in Hreq, Hkept.
  destruct (get_bedrock_client _ (logged _ st)) as [o st1].
  cbn [fst snd] in Hsame, Hreq, Hkept. subst o. cbn [query_text max_results].
  unfold in_world.
  destruct (retrieve_job_openings_paths self q n (world st1)) as (more & _ & Hone & _).
  cbn zeta in Hone.
  destruct (retrieve_job_openings self q n (world st1)) as [[response|e] w']; cbn [snd] in Hone.
  - cbn. rewrite Hone, Hreq. split; [reflexivity | exact Hkept].
  - cbn. rewrite Hone, Hreq. split; [reflexivity | exact Hkept].
Qed.

Lemma tool_one_request_witness :
  let handle := sample.failing (BotoCoreError "Connection was closed") in
  let st' := snd (@tool sample.runtime (sample.env_with handle) "engineer" 5 sample.fresh) in
  requests (world st')
  = requests (world sample.fresh)
      ++ [{| knowledgeBaseId := knowledge_base_id (sample.client_with handle);
             retrievalQuery_text := "engineer";
             numberOfResults := 5 |}]
  /\ _bedrock_client st' = Some (sample.client_with handle).
Proof.
  intros handle.
  apply (@tool_one_request sample.runtime (sample.env_with handle)
           (sample.client_with handle) "engineer" 5 sample.fresh);
    [discriminate | lia | reflexivity].
Defined.

(** ** src/server.py: the layout of the formatted response *)

Section Layout.
Context `{Runtime}.

(** The loop, as the blocks of the results one after the other. *)
Lemma append_results_blocks (idx : Z) (rs : list JobOpeningResult) :
  append_results [] idx rs
  = concat (imap (fun i r => result_lines (idx + Z.of_nat i) r) rs).
Proof.
  revert idx. induction rs as [|r rs IH]; intros idx; [reflexivity|].
  rewrite append_results_cons, IH. cbn [imap concat app].
  replace (idx + Z.of_nat 0) with idx by lia. f_equal. f_equal.
  apply imap_ext. intros i x _. cbn. f_equal. lia.
Qed.

End Layout.

(** X15: a response with a non-zero [total_results] is rendered as the
    lines joined by newlines: first the header with [total_results] as
    the count, then one block per result, in the order of [results],
    numbered from 1. *)
Theorem format_layout `{Runtime} (response : JobOpeningsResponse) :
  total_results response <> 0 ->
  _format_job_openings_response response
  = join nl
      (("Found " +:+ str_int (total_results response) +:+ " job opening(s):" +:+ nl)
         :: concat (imap (fun i result => result_lines (1 + Z.of_nat i) result)
                      (results response))).
Proof.
  intros Hcount. unfold _format_job_openings_response.
  replace (total_results response =? 0) with false by (symmetry; by apply Z.eqb_neq).
  by rewrite append_results_app, append_results_blocks.
Qed.

Lemma format_layout_witness :
  let r1 := {| content := "Job 1"; score := Some 0.9%float; metadata := []; source := None |} in
  let r2 := {| content := "Job 2"; score := None; metadata := []; source := None |} in
  @_format_job_openings_response sample.runtime {| results := [r1; r2]; total_results := 2 |}
  = join nl
      (("Found 2 job opening(s):" +:+ nl)
         :: @result_lines sample.runtime 1 r1 ++ @result_lines sample.runtime 2 r2).
Proof.
  intros r1 r2.
  rewrite (@format_layout sample.runtime {| results := [r1; r2]; total_results := 2 |});
    [reflexivity | discriminate].
Defined.

(** X16: the block of a result, line by line: the marker with the
    result's number; the score line if there is a score; the content; if
    the metadata is not empty, "Metadata:" and one line per item in the
    mapping's order; if there is a source, its type and then the "uri" of
    a non-empty S3 location, or else the "url" of a non-empty web location
    ("N/A" when the key is missing; the S3 location wins when both are
    there); an empty line at the end. *)
Theorem result_lines_layout `{Runtime} (idx : Z) (result : JobOpeningResult) :
  result_lines idx result
  = [nl +:+ "--- Job Opening #" +:+ str_int idx +:+ " ---"]
      ++ match score result with
         | Some s => ["Relevance Score: " +:+ format_1f (PrimFloat.mul s 100) +:+ "%"]
         | None => []
         end
      ++ [nl +:+ content result]
      ++ match metadata result with
         | [] => []
         | items =>
             (nl +:+ "Metadata:")
               :: map (fun item => "  - " +:+ fst item +:+ ": " +:+ py_str (snd item)) items
         end
      ++ match source result with
         | None => []
         | Some src =>
             (nl +:+ "Source Type: " +:+ type src)
               :: match s3_location src, web_location src with
                  | Some (item :: s3), _ =>
                      ["Location: "
                         +:+ py_str (dict_get_default (item :: s3) "uri" (PyStr "N/A"))]
                  | _, Some (item :: web) =>
                      ["URL: " +:+ py_str (dict_get_default (item :: web) "url" (PyStr "N/A"))]
                  | _, _ => []
                  end
         end
      ++ [""].
Proof.
  unfold result_lines, append_result.
  destruct (score result) as [s|], (metadata result) as [|item items],
    (source result) as [[ty [[|i3 s3]|] [[|iw web]|]]|];
    rewrite ?append_metadata_app; unfold append_source; cbn [truthy_dict s3_location
      web_location type default from_option id app];
    rewrite <- ?app_assoc; reflexivity.
Qed.

(** ** src/bedrock_client.py: scores, construction *)

(** X17: one score out of bounds fails the whole search.  When the service
    answers with a list in which some entry carries a float score that is
    a number but not within [0,1], [retrieve_job_openings] raises a
    BedrockClientError and returns none of the entries, the valid ones
    included. *)
Theorem retrieve_job_openings_score_out_of_bounds `{Runtime} (self : BedrockClient)
    (q : string) (n : Z) (w : io) (answer : dict) (entries : list pyval)
    (d : dict) (f : float) :
  retrieve (client self) (retrieve_request self q n) = Return (PyDict answer) ->
  dict_get answer "retrievalResults" = Some (PyList entries) ->
  In (PyDict d) entries ->
  dict_get d "score" = Some (PyFloat f) ->
  PrimFloat.is_nan f = false ->
  PrimFloat.leb 0 f && PrimFloat.leb f 1 = false ->
  exists cause w',
    retrieve_job_openings self q n w
    = (Raise (BedrockClientError ("Unexpected error during retrieval: " +:+ cause)), w').
Proof.
  intros Hanswer Hentries Hin Hscore Hnan Hbounds.
  apply (entry_rejected_fails_call self q n w answer entries (PyDict d) Hanswer Hentries Hin).
  exact (parse_score_out_of_bounds d f Hscore Hnan Hbounds).
Qed.

Lemma retrieve_job_openings_score_out_of_bounds_witness :
  let low := PyDict [("content", PyDict [("text", PyStr "Job")]); ("score", PyFloat (-0.25))] in
  exists cause w',
    @retrieve_job_openings sample.runtime
      (sample.client_with (sample.answering [sample.entry_se; low; sample.entry_ds]))
      "engineer" 10 sample.quiet
    = (Raise (BedrockClientError ("Unexpected error during retrieval: " +:+ cause)), w').
Proof.
  intros low.
  apply (@retrieve_job_openings_score_out_of_bounds sample.runtime
           (sample.client_with (sample.answering [sample.entry_se; low; sample.entry_ds]))
           "engineer" 10 sample.quiet
           [("retrievalResults", PyList [sample.entry_se; low; sample.entry_ds]);
            ("ResponseMetadata", PyDict [("HTTPStatusCode", PyInt 200)])]
           [sample.entry_se; low; sample.entry_ds]
           [("content", PyDict [("text", PyStr "Job")]); ("score", PyFloat (-0.25))]
           (-0.25)%float);
    [reflexivity | reflexivity | right; left; reflexivity | reflexivity | reflexivity
    | reflexivity].
Defined.

(** X18: what a BedrockClient is built from.  A construction that returns
    a client has read the settings and obtained the handle from
    [boto3.client] called for the service "bedrock-agent-runtime" with
    exactly the keyword arguments of [get_boto3_config]; the client is bound
    to the knowledge-base id of the settings; one line is logged, which
    names that id, and no request is issued. *)
Theorem init_returns `{Runtime} (env : environment) (w w' : io) (self : BedrockClient) :
  bedrock_client.__init__ env w = (Return self, w') ->
  get_settings env = Return (settings self)
  /\ boto3_client_new env "bedrock-agent-runtime" (get_boto3_config (settings self))
     = Return (client self)
  /\ knowledge_base_id self = bedrock_knowledge_base_id (settings self)
  /\ stderr w' = stderr w ++ ["[BedrockClient] [INFO] Initialized Bedrock client for KB: "
                                +:+ knowledge_base_id self]
  /\ requests w' = requests w.
Proof.
  unfold bedrock_client.__init__, try_except, bind, lift, bedrock_client._log, print_stderr.
  destruct (get_settings env) as [s|e]; [|discriminate].
  destruct (boto3_client_new env _ _) as [handle|e] eqn:Hboto; [|discriminate].
  intros [= <- <-]. cbn. repeat split. exact Hboto.
Qed.

Lemma init_returns_witness :
  let handle := sample.answering [] in
  let self := sample.client_with handle in
  let w' := snd (@bedrock_client.__init__ sample.runtime (sample.env_with handle) sample.quiet) in
  get_settings (sample.env_with handle) = Return (settings self)
  /\ boto3_client_new (sample.env_with handle) "bedrock-agent-runtime"
       (get_boto3_config (settings self))
     = Return (client self)
  /\ knowledge_base_id self = bedrock_knowledge_base_id (settings self)
  /\ stderr w' = stderr sample.quiet
                   ++ ["[BedrockClient] [INFO] Initialized Bedrock client for KB: "
                         +:+ knowledge_base_id self]
  /\ requests w' = requests sample.quiet.
Proof.
  intros handle self w'.
  apply (@init_returns sample.runtime (sample.env_with handle) sample.quiet w' self).
  reflexivity.
Defined.

(** ** src/server.py: what the caller is told of a failure *)

(** X19: when the client the module is linked with raises from
    [retrieve_job_openings], the tool tells the caller one of two fixed
    sentences, by the class of the exception alone (the first for a
    BedrockClientError, the second for anything else); the text of the
    exception goes to the diagnostic stream, in the one line logged then,
    and the message returned does not depend on it. *)
Theorem get_job_openings_hides_cause `{Runtime} {Client : Type}
    (BedrockClient_new : M io Client)
    (client_retrieve_job_openings : Client -> string -> Z -> M io JobOpeningsResponse)
    (q : string) (n : Z) (st st1 st2 : state Client) (c : Client) (e : exn) :
  q <> "" -> 0 < n <= 100 ->
  get_bedrock_client BedrockClient_new
    (logged (processing_line {| query_text := q; max_results := n |}) st) = (Return c, st1) ->
  in_world (client_retrieve_job_openings c q n) st1 = (Raise e, st2) ->
  exists line,
    get_job_openings BedrockClient_new client_retrieve_job_openings q n st
    = (Return match e with
              | BedrockClientError _ =>
                  "Failed to retrieve job openings. Please try again later."
              | _ => "An unexpected error occurred. Please try again later."
              end,
       logged line st2)
    /\ contains line (exn_str e).
Proof.
  intros Hq Hn Hclient Hretrieve.
  rewrite (get_job_openings_accepted _ _ q n st _ (JobOpeningQuery_new_valid q n Hq Hn)).
  rewrite Hclient. cbn [query_text max_results]. rewrite Hretrieve.
  exists ("[MCP Server] [ERROR] "
            +:+ match e with
                | BedrockClientError _ => "Error retrieving job openings: "
                | _ => "Unexpected error: "
                end +:+ exn_str e).
  split.
  - destruct e; reflexivity.
  - do 2 apply contains_append_l. apply contains_refl.
Qed.

Lemma get_job_openings_hides_cause_witness :
  let handle := sample.failing (BotoCoreError "Connection was closed") in
  let new := @bedrock_client.__init__ sample.runtime (sample.env_with handle) in
  let st0 := logged (processing_line {| query_text := "engineer"; max_results := 10 |})
               sample.fresh in
  let st1 := snd (get_bedrock_client new st0) in
  let st2 := snd (in_world (@retrieve_job_openings sample.runtime
                              (sample.client_with handle) "engineer" 10) st1) in
  exists line,
    @get_job_openings sample.runtime BedrockClient new (@retrieve_job_openings sample.runtime)
      "engineer" 10 sample.fresh
    = (Return "Failed to retrieve job openings. Please try again later.", logged line st2)
    /\ contains line "Failed to retrieve job openings: Connection was closed".
Proof.
  intros handle new st0 st1 st2.
  apply (@get_job_openings_hides_cause sample.runtime BedrockClient new
           (@retrieve_job_openings sample.runtime) "engineer" 10 sample.fresh st1 st2
           (sample.client_with handle)
           (BedrockClientError "Failed to retrieve job openings: Connection was closed"));
    [discriminate | lia | reflexivity | reflexivity].
Defined.
